(** * A shallow embedding of [optimizers/gru.py]

    The script trains a GRU regressor on windows of a normalised feature
    matrix, once per point of a hyper-parameter grid and per walk-forward
    cycle, and keeps a "best" candidate in module-level variables.

    What is embedded:
    - [create_sequences] (lines 126-136), over Python-style slicing and
      indexing;
    - [train_model] (lines 42-62), over an abstract gradient step;
    - the scaler built by [normalize_data] (lines 121-124), in exact
      rational arithmetic;
    - the grid enumeration of line 171;
    - the body of the two nested loops (lines 171-239) and the final report
      (lines 242-254), as transitions on a record of the script's
      module-level variables, with the model objects kept in a heap so that
      aliasing ([best_model = model]) and copying ([copy.deepcopy(model)])
      are told apart.

    Exceptions are values of [result]; floats are binary64 primitive floats
    (a float32 loss or prediction compares the same once widened); dates are
    day ordinals in [Z], without the calendar's last day. *)

From Stdlib Require Import ZArith QArith Qminmax Floats Lia Lqa String Sorted.
From stdpp Require Import base list.

Set Default Proof Using "Type".
#[local] Set Warnings "-inexact-float".

(** ** Exceptions *)

Inductive exn : Set :=
| IndexError      (* tuple or sequence index out of range *)
| KeyError        (* missing dictionary key *)
| TypeError       (* a value of the wrong dynamic type *)
| ValueError      (* a value outside a callee's domain *)
| ExternalError.  (* raised inside a collaborator: download, indicators *)

Inductive result (A : Type) : Type :=
| Ok (a : A)
| Raise (e : exn).
Arguments Ok {A} a.
Arguments Raise {A} e.

Definition bind {A B} (m : result A) (k : A -> result B) : result B :=
  match m with
  | Ok a => k a
  | Raise e => Raise e
  end.

Notation "'try' x <- m ; k" := (bind m (fun x => k))
  (at level 10, x name, m at level 100, k at level 200).
Notation "'try' ' p <- m ; k" := (bind m (fun p => k))
  (at level 10, p pattern, m at level 100, k at level 200).

(** [for x in items: body], threading the variables the body assigns; an
    exception raised by the body leaves the loop. *)
Fixpoint for_each {S I} (body : S -> I -> result S) (s : S) (items : list I)
  : result S :=
  match items with
  | [] => Ok s
  | i :: rest => try s' <- body s i; for_each body s' rest
  end.

(** [range(n)] for a Python int [n]: empty when [n <= 0]. *)
Definition range (n : Z) : list nat := seq 0 (Z.to_nat n).

(** ** Slicing and indexing (non-negative bounds) *)

(** [data[start:stop]]: a slice never raises, it is cut at the end of the
    data. *)
Definition slice {A} (data : list A) (start stop : nat) : list A :=
  take (stop - start) (drop start data).

(** [data[i]]: raises [IndexError] past the end. *)
Definition index {A} (data : list A) (i : nat) : result A :=
  match data !! i with
  | Some r => Ok r
  | None => Raise IndexError
  end.

(** ** [create_sequences] (lines 126-136) *)

Section Windowing.
Context {A : Type}.

Definition create_sequences_body (data : list A) (seq_length : nat)
    (acc : list (list A) * list A) (i : nat)
  : result (list (list A) * list A) :=
  let '(xs, ys) := acc in
  let x := slice data i (i + seq_length) in
  try y <- index data (i + seq_length);
  Ok (xs ++ [x], ys ++ [y]).

(** The two [np.array] conversions of line 136 keep the lists as they are;
    an empty [xs] becomes an array of shape [(0,)]. *)
Definition create_sequences (data : list A) (seq_length : nat)
  : result (list (list A) * list A) :=
  for_each (create_sequences_body data seq_length) ([], [])
    (range (Z.of_nat (length data) - Z.of_nat seq_length - 1)%Z).

End Windowing.

(** ** The scaler of [normalize_data] (lines 121-124)

    [MinMaxScaler] is scikit-learn's. Its arithmetic, per column:
    [fit] records [data_min], [data_max] and sets
    [scale_ = (hi - lo) / handle_zeros(data_max - data_min)],
    [min_ = lo - data_min * scale_]; [transform] is [X * scale_ + min_]
    (no clipping); [inverse_transform] is [(X - min_) / scale_]. The
    embedding does this arithmetic in [Q], so rounding is not modelled. *)

Module MinMaxScaler.
Local Open Scope Q_scope.

Record t : Type := { scale_ : list Q; min_ : list Q }.

(** [feature_range=(-1, 1)], line 122. *)
Definition feature_range : Q * Q := (-1, 1).

(** A zero range is replaced by one, so that a constant column does not
    divide by zero. *)
Definition handle_zeros_in_scale (r : Q) : Q :=
  if Qeq_bool r 0 then 1 else r.

(** Column-wise minimum and maximum over the rows ([axis=0]). *)
Definition data_min (row : list Q) (rows : list (list Q)) : list Q :=
  foldl (zip_with Qmin) row rows.
Definition data_max (row : list Q) (rows : list (list Q)) : list Q :=
  foldl (zip_with Qmax) row rows.

Definition fit (X : list (list Q)) : result t :=
  match X with
  | [] => Raise ValueError   (* no sample to fit *)
  | row :: rows =>
      let lo := fst feature_range in
      let hi := snd feature_range in
      let mn := data_min row rows in
      let mx := data_max row rows in
      let data_range := zip_with Qminus mx mn in
      let scale := map (fun r => (hi - lo) / handle_zeros_in_scale r) data_range in
      Ok {| scale_ := scale;
            min_ := zip_with (fun m sc => lo - m * sc) mn scale |}
  end.

Definition transform_row (sc : t) (row : list Q) : list Q :=
  zip_with Qplus (zip_with Qmult row (scale_ sc)) (min_ sc).

Definition inverse_transform_row (sc : t) (row : list Q) : list Q :=
  zip_with Qdiv (zip_with Qminus row (min_ sc)) (scale_ sc).

Definition transform (sc : t) (X : list (list Q)) : list (list Q) :=
  map (transform_row sc) X.

Definition inverse_transform (sc : t) (X : list (list Q)) : list (list Q) :=
  map (inverse_transform_row sc) X.

Definition fit_transform (X : list (list Q)) : result (list (list Q) * t) :=
  try sc <- fit X; Ok (transform sc X, sc).

(** What [fit] leaves in the scaler for a matrix of [n] columns. *)
Definition fitted (n : nat) (sc : t) : Prop :=
  length (scale_ sc) = n /\ length (min_ sc) = n /\
  Forall (fun a => ~ a == 0) (scale_ sc).

End MinMaxScaler.

(** Lines 121-124. *)
Definition normalize_data (data : list (list Q))
  : result (list (list Q) * MinMaxScaler.t) :=
  MinMaxScaler.fit_transform data.

(** A matrix: every row has [n] columns. *)
Definition rectangular {A} (n : nat) (X : list (list A)) : Prop :=
  Forall (fun row => length row = n) X.

(** ** The model object and [train_model] (lines 26-62) *)

(** What of a [GRUModel] instance the script can observe: its parameter
    tensors and the train/eval flag of [nn.Module]. *)
Record GRUModel (Weights : Type) : Type :=
  { weights : Weights; training : bool }.
Arguments weights {Weights} _.
Arguments training {Weights} _.

Definition set_training {Weights} (mode : bool) (model : GRUModel Weights)
  : GRUModel Weights :=
  {| weights := weights model; training := mode |}.

Section Trainer.
Context {Weights Optim Batch : Type}.

(** Lines 48-52: [zero_grad], forward pass, [criterion], [backward] and
    [optimizer.step()], as one update of the parameters and of the
    optimizer's state that also gives the loss of the pass. *)
Variable epoch_step : Batch -> Weights -> Optim -> Weights * Optim * float.

Definition train_epoch (Xy : Batch)
    (acc : GRUModel Weights * Optim * list float) (t : nat)
  : GRUModel Weights * Optim * list float :=
  let '(model, optimizer, loss_values) := acc in
  let '(w, optimizer, loss) := epoch_step Xy (weights model) optimizer in
  let model := {| weights := w; training := training model |} in
  let loss_values :=
    if (Z.of_nat t mod 10 =? 0)%Z then loss_values ++ [loss] else loss_values in
  (model, optimizer, loss_values).

(** The progress bar and the chart only display; the list the chart is
    drawn from is returned in its place, with the optimizer as the loop
    left it. *)
Definition train_model (model : GRUModel Weights) (Xy : Batch)
    (num_epochs : Z) (optimizer : Optim)
  : GRUModel Weights * Optim * list float :=
  let model := set_training true model in
  let '(model, optimizer, loss_values) :=
    fold_left (train_epoch Xy) (range num_epochs) (model, optimizer, []) in
  let model := set_training false model in
  (model, optimizer, loss_values).

End Trainer.

(** ** The hyper-parameter grid (lines 157-163, 171)

    A Python dict is an association list in insertion order; its keys are
    distinct. *)

Inductive value : Set :=
| VInt (n : Z)
| VFloat (x : float).

Definition dict (V : Type) : Type := list (string * V).

(** [d[k]]: raises [KeyError] when the key is absent. *)
Fixpoint getitem {V} (d : dict V) (k : string) : result V :=
  match d with
  | [] => Raise KeyError
  | (k', v) :: rest => if String.eqb k k' then Ok v else getitem rest k
  end.

(** Lines 157-163. *)
Definition param_grid : dict (list value) :=
  [ ("hidden_dim"%string, [VInt 32; VInt 64; VInt 128]);
    ("num_layers"%string, [VInt 2; VInt 3; VInt 4]);
    ("learning_rate"%string, [VFloat 0.001; VFloat 0.0005; VFloat 0.0001]);
    ("seq_length"%string, [VInt 60; VInt 80; VInt 100]);
    ("dropout_rate"%string, [VFloat 0.1; VFloat 0.2; VFloat 0.3]) ].

(** [sorted(p.items())]: the items ordered by key, strings compared
    character by character. *)
Fixpoint insert_item {V} (kv : string * V) (items : list (string * V))
  : list (string * V) :=
  match items with
  | [] => [kv]
  | kv' :: rest =>
      if String.leb (fst kv) (fst kv') then kv :: items
      else kv' :: insert_item kv rest
  end.

Definition sorted_items {V} (d : dict V) : list (string * V) :=
  foldr insert_item [] d.

(** [itertools.product] of the value lists: the last list varies fastest. *)
Fixpoint product {V} (values : list (list V)) : list (list V) :=
  match values with
  | [] => [[]]
  | vs :: rest => flat_map (fun v => map (cons v) (product rest)) vs
  end.

(** Iterating over scikit-learn's [ParameterGrid(param_grid)]: the items
    of the grid are sorted by key, and one dict is produced per element of
    the product of the value lists, [dict(zip(keys, v))]. *)
Definition ParameterGrid {V} (grid : dict (list V)) : list (dict V) :=
  let items := sorted_items grid in
  let keys := map fst items in
  let values := map snd items in
  map (fun v => zip keys v) (product values).

(** The enumeration as the specification words it: lexicographic over the
    keys in the order the grid declares them. It is only compared with
    [ParameterGrid]; the script does not run it. *)
Definition declared_order_grid {V} (grid : dict (list V)) : list (dict V) :=
  map (fun v => zip (map fst grid) v) (product (map snd grid)).

(** The order of the enumeration is told with the positions chosen in each
    value list, most significant first. [pick] is the combination a tuple of
    positions selects, [rank] where the product lists it, [lex_lt] the
    lexicographic order on tuples, [combinations] the number of tuples. *)
Fixpoint pick {V} (values : list (list V)) (positions : list nat)
  : option (list V) :=
  match values, positions with
  | [], [] => Some []
  | vs :: values, i :: positions =>
      match vs !! i, pick values positions with
      | Some v, Some c => Some (v :: c)
      | _, _ => None
      end
  | _, _ => None
  end.

Fixpoint rank {V} (values : list (list V)) (positions : list nat) : nat :=
  match values, positions with
  | vs :: values, i :: positions =>
      i * length (product values) + rank values positions
  | _, _ => 0
  end.

Fixpoint lex_lt (p q : list nat) : Prop :=
  match p, q with
  | i :: p, j :: q => i < j \/ (i = j /\ lex_lt p q)
  | _, _ => False
  end.

Definition in_range {V} (values : list (list V)) (positions : list nat)
  : Prop :=
  Forall2 (fun i vs => i < length vs) positions values.

Definition combinations {V} (items : list (string * list V)) : nat :=
  foldr (fun kv n => length (snd kv) * n) 1 items.

Definition key_le {V} (a b : string * V) : Prop :=
  String.leb (fst a) (fst b) = true.

(** The five module-level variables assigned from [params], lines 174-178. *)
Record Hyper : Set :=
  { hidden_dim : value;
    num_layers : value;
    learning_rate : value;
    seq_length : value;
    dropout_rate : value }.

Definition read_params (params : dict value) : result Hyper :=
  try hd <- getitem params "hidden_dim";
  try nl <- getitem params "num_layers";
  try lr <- getitem params "learning_rate";
  try sl <- getitem params "seq_length";
  try dr <- getitem params "dropout_rate";
  Ok {| hidden_dim := hd; num_layers := nl; learning_rate := lr;
        seq_length := sl; dropout_rate := dr |}.

(** [seq_length] as [create_sequences] uses it: [range] refuses a float.
    Negative lengths are outside the embedding of slices above (the sidebar
    and the grid only offer positive ones) and are rejected. *)
Definition window_length (v : value) : result nat :=
  match v with
  | VInt n => if (0 <=? n)%Z then Ok (Z.to_nat n) else Raise ValueError
  | VFloat _ => Raise TypeError
  end.

(** ** The module-level state (lines 148-168) *)

(** [np.all(predictions > best_predictions)], on the single row both arrays
    have (they are [1 x columns], with the same columns). *)
Definition np_all_gt (predictions best : list float) : bool :=
  forallb (fun '(p, b) => PrimFloat.ltb b p) (zip predictions best).

Section Tracker.
Context {Weights : Type}.

(** Model objects live in [heap]; a variable bound to a model holds its
    location. [trained_with] collects the dicts line 172 prints. *)
Record State : Type :=
  { heap : list (GRUModel Weights);
    model : option nat;
    start_date : Z;
    end_date : Z;
    next_day_datetime : Z;
    best_model : option nat;
    best_predictions : option (list float);
    best_loss : float;
    best_params : option (dict value);
    trained_with : list (dict value) }.

(** Lines 148-168: [start_date], [end_date] read from the sidebar. *)
Definition initial_state (start_date end_date : Z) : State :=
  {| heap := [];
     model := None;
     start_date := start_date;
     end_date := end_date;
     next_day_datetime := end_date + 1;
     best_model := None;
     best_predictions := None;
     best_loss := infinity;
     best_params := None;
     trained_with := [] |}.

(** Line 151 and lines 231-232 keep [next_day_datetime] one day after
    [end_date]. *)
Definition dates_linked (s : State) : Prop :=
  next_day_datetime s = (end_date s + 1)%Z.

(** What a cycle has in hand at line 223. *)
Record Candidate : Type :=
  { c_params : dict value;
    c_model : nat;
    c_predictions : list float;
    c_loss : float }.

(** Lines 224-229: the stored model is the live object itself. *)
Definition keep_if_greater (c : Candidate) (s : State) : State :=
  let replace :=
    match best_predictions s with
    | None => true
    | Some best => np_all_gt (c_predictions c) best
    end in
  if replace then
    {| heap := heap s; model := model s;
       start_date := start_date s; end_date := end_date s;
       next_day_datetime := next_day_datetime s;
       best_model := Some (c_model c);
       best_predictions := Some (c_predictions c);
       best_loss := c_loss c;
       best_params := Some (c_params c);
       trained_with := trained_with s |}
  else s.

(** Lines 231-233 ([next_day] is the text of [next_day_datetime]). *)
Definition advance_dates (s : State) : State :=
  {| heap := heap s; model := model s;
     start_date := start_date s;
     end_date := next_day_datetime s;
     next_day_datetime := next_day_datetime s + 1;
     best_model := best_model s;
     best_predictions := best_predictions s;
     best_loss := best_loss s;
     best_params := best_params s;
     trained_with := trained_with s |}.

(** [copy.deepcopy(obj)]: a new object with the contents of the one at
    [l]. Every location the script holds is allocated. *)
Definition deepcopy (h : list (GRUModel Weights)) (l : nat)
  : list (GRUModel Weights) * nat :=
  (h ++ option_list (h !! l), length h).

(** Lines 236-239: the stored model is a copy; [best_predictions] is not
    assigned. *)
Definition keep_if_lower_loss (c : Candidate) (s : State) : State :=
  if PrimFloat.ltb (c_loss c) (best_loss s) then
    let '(h, l) := deepcopy (heap s) (c_model c) in
    {| heap := h; model := model s;
       start_date := start_date s; end_date := end_date s;
       next_day_datetime := next_day_datetime s;
       best_model := Some l;
       best_predictions := best_predictions s;
       best_loss := c_loss c;
       best_params := Some (c_params c);
       trained_with := trained_with s |}
  else s.

(** Lines 224-239, the end of a cycle. *)
Definition record_cycle (c : Candidate) (s : State) : State :=
  keep_if_lower_loss c (advance_dates (keep_if_greater c s)).

(** The object [best_model] refers to. *)
Definition best_object (s : State) : option (GRUModel Weights) :=
  l ← best_model s; heap s !! l.

(** In-place mutation of the object at [l], as further training does. *)
Definition mutate (l : nat) (m : GRUModel Weights) (s : State) : State :=
  {| heap := <[l := m]> (heap s); model := model s;
     start_date := start_date s; end_date := end_date s;
     next_day_datetime := next_day_datetime s;
     best_model := best_model s;
     best_predictions := best_predictions s;
     best_loss := best_loss s;
     best_params := best_params s;
     trained_with := trained_with s |}.

(** Lines 242-254: what is printed (of the prediction, the first four
    columns), and the [state_dict] saved to [best_model.pt] if any. *)
Record Report : Type :=
  { shown_params : option (dict value);
    shown_loss : float;
    saved_state_dict : option Weights;
    shown_predictions : option (list float) }.

Definition report (s : State) : result Report :=
  match best_model s with
  | None =>
      Ok {| shown_params := best_params s; shown_loss := best_loss s;
            saved_state_dict := None; shown_predictions := None |}
  | Some l =>
      match heap s !! l, best_predictions s with
      | Some m, Some p =>
          Ok {| shown_params := best_params s; shown_loss := best_loss s;
                saved_state_dict := Some (weights m);
                shown_predictions := Some p |}
      | _, _ => Raise TypeError   (* [None] where an object is used *)
      end
  end.

End Tracker.
Arguments State : clear implicits.
Arguments Report : clear implicits.

(** ** The two loops (lines 171-239) and the script *)

Section Script.
Context {Frame Val Scaler Weights Optim Output : Type}.

(** The collaborators, which the embedding does not look into. A date
    range is a pair of day ordinals; the ticker is fixed for a run. *)

(** Lines 64-67: the download and [dropna]. *)
Variable fetch_historical_data : Z -> Z -> result Frame.
(** Lines 183-185: indicators, [dropna], and [normalize_data] on the
    values, giving the normalised matrix and its scaler. *)
Variable features : Frame -> result (list (list Val) * Scaler).
(** Line 194: the parameters [GRUModel(...)] starts from. They are drawn at
    random; [draw] numbers the models built so far. *)
Variable init_weights : forall (draw input_dim output_dim : nat), Hyper -> Weights.
(** Line 197. *)
Variable Adam : Weights -> value -> Optim.
(** Lines 48-52, see [train_model]. *)
Variable epoch_step :
  list (list (list Val)) * list (list Val) -> Weights -> Optim ->
  Weights * Optim * float.
(** Lines 35-40 and 202: the forward pass, in the mode the model is in. *)
Variable forward : GRUModel Weights -> list (list (list Val)) -> Output.
(** Lines 203-204: the row of the de-normalised prediction. It has the
    columns of the frame, Open, High, Low and Close first; lines 207-221,
    which print these four and the actual prices, only display. *)
Variable inverse_transform : Scaler -> Output -> list float.
(** Lines 196, 223: [MSELoss], as a Python float ([loss.item()]). *)
Variable criterion : Output -> list (list Val) -> float.
(** Lines 141, 146: sidebar inputs. *)
Variable num_epochs : Z.
Variable num_cycles : Z.

(** [a[-1:]]: the last element, as a list. *)
Definition last_one {A} (a : list A) : list A := drop (length a - 1) a.

(** [data.shape[1]]. *)
Definition columns (data : list (list Val)) : nat :=
  match data with
  | [] => 0
  | row :: _ => length row
  end.

(** [X.shape[2]]: with no window, [X] has shape [(0,)] and the index is out
    of range; otherwise [X] is [windows x seq_length x columns]. *)
Definition shape_2 (X : list (list (list Val))) (data : list (list Val))
  : result nat :=
  match X with
  | [] => Raise IndexError
  | _ :: _ => Ok (columns data)
  end.

(** Line 194 binds [model] to a new object. *)
Definition new_model (m : GRUModel Weights) (s : State Weights)
  : State Weights :=
  {| heap := heap s ++ [m]; model := Some (length (heap s));
     start_date := start_date s; end_date := end_date s;
     next_day_datetime := next_day_datetime s;
     best_model := best_model s;
     best_predictions := best_predictions s;
     best_loss := best_loss s;
     best_params := best_params s;
     trained_with := trained_with s |}.

(** Lines 182-239, one walk-forward cycle. *)
Definition cycle (h : Hyper) (params : dict value) (s : State Weights)
  : result (State Weights) :=
  try frame <- fetch_historical_data (start_date s) (end_date s);
  try '(data, scaler) <- features frame;
  try L <- window_length (seq_length h);
  try '(X, y) <- create_sequences data L;
  try input_dim <- shape_2 X data;
  let output_dim := columns data in
  let l := length (heap s) in
  let fresh :=
    {| weights := init_weights l input_dim output_dim h; training := true |} in
  let s := new_model fresh s in
  let optimizer := Adam (weights fresh) (learning_rate h) in
  let '(trained, _, _) :=
    train_model epoch_step fresh (X, y) num_epochs optimizer in
  let s := mutate l trained s in
  let outputs := forward trained (last_one X) in
  let predictions := inverse_transform scaler outputs in
  try actual_data <-
    fetch_historical_data (next_day_datetime s) (next_day_datetime s + 1);
  let loss := criterion outputs (last_one y) in
  Ok (record_cycle
        {| c_params := params; c_model := l;
           c_predictions := predictions; c_loss := loss |} s).

(** Line 172. *)
Definition announce (params : dict value) (s : State Weights)
  : State Weights :=
  {| heap := heap s; model := model s;
     start_date := start_date s; end_date := end_date s;
     next_day_datetime := next_day_datetime s;
     best_model := best_model s;
     best_predictions := best_predictions s;
     best_loss := best_loss s;
     best_params := best_params s;
     trained_with := trained_with s ++ [params] |}.

(** Lines 180-239: [for cycle in range(num_cycles)]. *)
Definition walk_forward (h : Hyper) (params : dict value)
    (s : State Weights) : result (State Weights) :=
  for_each (fun s (_ : nat) => cycle h params s) s (range num_cycles).

(** Lines 172-239, the body of the grid loop. *)
Definition combination (s : State Weights) (params : dict value)
  : result (State Weights) :=
  let s := announce params s in
  try h <- read_params params;
  walk_forward h params s.

(** Lines 171-239. *)
Definition grid_search (grid : dict (list value)) (s : State Weights)
  : result (State Weights) :=
  for_each combination s (ParameterGrid grid).

(** The script from line 148 on. *)
Definition main (start_date end_date : Z) : result (Report Weights) :=
  try s <- grid_search param_grid (initial_state start_date end_date);
  report s.

(** The collaborators deliver, at every date range, a matrix with more than
    [L + 1] rows. *)
Definition enough_data (L : nat) : Prop :=
  forall a b, exists frame data scaler,
    fetch_historical_data a b = Ok frame /\
    features frame = Ok (data, scaler) /\
    L + 1 < length data.

(** [params] has the five keys, and its window length is served. *)
Definition runnable (params : dict value) : Prop :=
  exists h L,
    read_params params = Ok h /\
    window_length (seq_length h) = Ok L /\
    enough_data L.

End Script.

(** ** A small instance, to run the definitions on *)

Module Toy.

(** Eight rows of four columns. *)
Definition matrix : list (list Z) :=
  map (fun i => let z := Z.of_nat i in [z; (z + 2)%Z; (z - 1)%Z; (z + 1)%Z])
    (seq 0 8).

Definition fetch (a b : Z) : result unit := Ok tt.
Definition features (_ : unit) : result (list (list Z) * unit) :=
  Ok (matrix, tt).
Definition init_weights (draw input_dim output_dim : nat) (_ : Hyper) : nat :=
  0.
Definition Adam (_ : nat) (_ : value) : unit := tt.
Definition epoch_step (_ : list (list (list Z)) * list (list Z))
    (w : nat) (o : unit) : nat * unit * float :=
  (S w, o, 0.25%float).
Definition forward (m : GRUModel nat) (_ : list (list (list Z)))
  : list float :=
  let w := PrimFloat.of_uint63 (Uint63.of_Z (Z.of_nat (weights m))) in
  [w; (w + 2)%float; (w - 1)%float; (w + 1)%float].
Definition inverse_transform (_ : unit) (o : list float) : list float := o.
Definition criterion (_ : list float) (_ : list (list Z)) : float :=
  0.5%float.

Definition grid : dict (list value) :=
  [ ("hidden_dim"%string, [VInt 32; VInt 64]);
    ("num_layers"%string, [VInt 2]);
    ("learning_rate"%string, [VFloat 0.001]);
    ("seq_length"%string, [VInt 2; VInt 3; VInt 4]);
    ("dropout_rate"%string, [VFloat 0.1]) ].

Definition params : dict value :=
  [ ("dropout_rate"%string, VFloat 0.1);
    ("hidden_dim"%string, VInt 32);
    ("learning_rate"%string, VFloat 0.001);
    ("num_layers"%string, VInt 2);
    ("seq_length"%string, VInt 2) ].

(** A window of seven rows, for which the eight rows of [matrix] give no
    sequence. *)
Definition long_params : dict value :=
  [ ("dropout_rate"%string, VFloat 0.1);
    ("hidden_dim"%string, VInt 32);
    ("learning_rate"%string, VFloat 0.001);
    ("num_layers"%string, VInt 2);
    ("seq_length"%string, VInt 7) ].

Definition long_window : Hyper :=
  {| hidden_dim := VInt 32; num_layers := VInt 2;
     learning_rate := VFloat 0.001; seq_length := VInt 7;
     dropout_rate := VFloat 0.1 |}.

Definition short_window : Hyper :=
  {| hidden_dim := VInt 32; num_layers := VInt 2;
     learning_rate := VFloat 0.001; seq_length := VInt 2;
     dropout_rate := VFloat 0.1 |}.

Definition other_params : dict value :=
  [ ("dropout_rate"%string, VFloat 0.1);
    ("hidden_dim"%string, VInt 64);
    ("learning_rate"%string, VFloat 0.001);
    ("num_layers"%string, VInt 2);
    ("seq_length"%string, VInt 3) ].

(** Two trained models in the heap and nothing stored yet. *)
Definition m0 : GRUModel nat := {| weights := 10; training := false |}.
Definition m1 : GRUModel nat := {| weights := 20; training := false |}.

Definition two_models : State nat :=
  {| heap := [m0; m1]; model := Some 1;
     start_date := 0; end_date := 100; next_day_datetime := 101;
     best_model := None; best_predictions := None;
     best_loss := infinity; best_params := None;
     trained_with := [] |}.

(** The second candidate predicts lower values and has the lower loss. *)
Definition first : Candidate :=
  {| c_params := params; c_model := 0;
     c_predictions := [10%float; 12%float; 9%float; 11%float];
     c_loss := 0.5%float |}.
Definition second : Candidate :=
  {| c_params := other_params; c_model := 1;
     c_predictions := [1%float; 3%float; 0%float; 2%float];
     c_loss := 0.2%float |}.

End Toy.

(** ** What the loops keep true of the stored candidate *)

Section Stored.
Context {Weights : Type}.

(** A prediction and hyper-parameters are stored and [best_model] refers
    to an object. *)
Definition has_best (s : State Weights) : Prop :=
  exists p l m q,
    best_predictions s = Some p /\ best_model s = Some l /\
    heap s !! l = Some m /\ best_params s = Some q.

(** Nothing is stored yet, or both are. *)
Definition stored_ok (s : State Weights) : Prop :=
  (best_predictions s = None /\ best_model s = None) \/ has_best s.

End Stored.

(** [params] has the five keys and its window length is an int from 0 to
    [n]. *)
Definition window_at_most (n : nat) (params : dict value) : bool :=
  match read_params params with
  | Ok h =>
      match window_length (seq_length h) with
      | Ok L => L <=? n
      | Raise _ => false
      end
  | Raise _ => false
  end.

(** ** A longer history for the small instance *)

Module ToyHistory.

(** A hundred and ten rows of four columns: enough for the windows of the
    script's grid. *)
Definition matrix : list (list Z) :=
  map (fun i => let z := Z.of_nat i in [z; (z + 2)%Z; (z - 1)%Z; (z + 1)%Z])
    (seq 0 110).

Definition features (_ : unit) : result (list (list Z) * unit) :=
  Ok (matrix, tt).

(** One cycle and one search of the small instance of [Toy], from a state
    in which nothing is stored, and the states they end in. *)
Definition first_cycle : result (State nat) :=
  cycle Toy.fetch Toy.features Toy.init_weights Toy.Adam Toy.epoch_step
    Toy.forward Toy.inverse_transform Toy.criterion 3
    Toy.short_window Toy.params (initial_state 0 100).

(** A cycle that starts with two models in the heap. *)
Definition later_cycle : result (State nat) :=
  cycle Toy.fetch Toy.features Toy.init_weights Toy.Adam Toy.epoch_step
    Toy.forward Toy.inverse_transform Toy.criterion 3
    Toy.short_window Toy.params Toy.two_models.

Definition search : result (State nat) :=
  grid_search Toy.fetch Toy.features Toy.init_weights Toy.Adam
    Toy.epoch_step Toy.forward Toy.inverse_transform Toy.criterion 3 2
    Toy.grid (initial_state 0 100).

Definition state_of (r : result (State nat)) : State nat :=
  match r with
  | Ok s => s
  | Raise _ => initial_state 0 100
  end.

End ToyHistory.

(** * Properties *)

(** ** Loops *)

Lemma for_each_app {S I} (body : S -> I -> result S) (s : S) (l1 l2 : list I) :
  for_each body s (l1 ++ l2) =
  try s' <- for_each body s l1; for_each body s' l2.
Proof.
  revert s. induction l1 as [|i l1 IH]; intros s; simpl; [done|].
  destruct (body s i) as [s'|e]; simpl; [apply IH|done].
Qed.

Lemma for_each_snoc {S I} (body : S -> I -> result S) (s s' : S)
    (l : list I) (i : I) :
  for_each body s l = Ok s' ->
  for_each body s (l ++ [i]) = body s' i.
Proof.
  intros H. rewrite for_each_app, H. simpl. by destruct (body s' i).
Qed.

Lemma range_nonpos (n : Z) : (n <= 0)%Z -> range n = [].
Proof. intros H. unfold range. by replace (Z.to_nat n) with 0 by lia. Qed.

Lemma range_of_nat (n : nat) : range (Z.of_nat n) = seq 0 n.
Proof. unfold range. by rewrite Nat2Z.id. Qed.

(** ** Windows *)

Section WindowingFacts.
Context {A : Type}.
Implicit Types (data : list A) (L : nat).

Lemma index_lt data i :
  i < length data -> exists r, data !! i = Some r /\ index data i = Ok r.
Proof.
  intros Hi. destruct (lookup_lt_is_Some_2 data i Hi) as [r Hr].
  exists r. unfold index. by rewrite Hr.
Qed.

(** The loop after [n] rounds, as long as the index it reads exists. *)
Lemma create_sequences_rounds data L n :
  n + L <= length data - 1 -> 0 < length data ->
  for_each (create_sequences_body data L) ([], []) (seq 0 n) =
  Ok (map (fun i => slice data i (i + L)) (seq 0 n), take n (drop L data)).
Proof.
  intros Hn Hlen. induction n as [|n IH]; [done|].
  rewrite seq_S, (for_each_snoc _ _ _ _ _ (IH ltac:(lia))). simpl.
  destruct (index_lt data (n + L) ltac:(lia)) as (y & Hy & ->). simpl.
  rewrite map_app. simpl. do 2 f_equal.
  symmetry. apply take_S_r. rewrite lookup_drop.
  by replace (L + n) with (n + L) by lia.
Qed.

Lemma create_sequences_enough data L :
  L + 1 < length data ->
  create_sequences data L =
  Ok (map (fun i => slice data i (i + L)) (seq 0 (length data - L - 1)),
      take (length data - L - 1) (drop L data)).
Proof.
  intros H. unfold create_sequences.
  replace (Z.of_nat (length data) - Z.of_nat L - 1)%Z
    with (Z.of_nat (length data - L - 1)) by lia.
  rewrite range_of_nat. apply create_sequences_rounds; lia.
Qed.

Lemma create_sequences_short data L :
  length data <= L + 1 -> create_sequences data L = Ok ([], []).
Proof.
  intros H. unfold create_sequences. by rewrite range_nonpos by lia.
Qed.

(** C2. With [R] rows and a window length [L < R - 1], [create_sequences]
    returns [R - L - 1] windows and as many targets; window [i] is the [L]
    rows [i], ..., [i + L - 1], and target [i] is row [i + L], the one that
    follows the window. *)
Theorem create_sequences_windows data L :
  (Z.of_nat L < Z.of_nat (length data) - 1)%Z ->
  exists xs ys,
    create_sequences data L = Ok (xs, ys) /\
    length xs = length data - L - 1 /\
    length ys = length data - L - 1 /\
    forall i, i < length data - L - 1 ->
      exists x y,
        xs !! i = Some x /\ ys !! i = Some y /\
        length x = L /\
        (forall j, j < L -> x !! j = data !! (i + j)) /\
        data !! (i + L) = Some y.
Proof.
  intros HL. assert (L + 1 < length data) as HL' by lia.
  eexists _, _. split; [by apply create_sequences_enough|].
  split; [by rewrite length_map, length_seq|].
  split; [rewrite length_take, length_drop; lia|].
  intros i Hi.
  destruct (lookup_lt_is_Some_2 data (i + L) ltac:(lia)) as [y Hy].
  exists (slice data i (i + L)), y. repeat split.
  - rewrite list_lookup_fmap, lookup_seq_lt by done. done.
  - rewrite lookup_take_lt, lookup_drop by done.
    by replace (L + i) with (i + L) by lia.
  - unfold slice. rewrite length_take, length_drop. lia.
  - intros j Hj. unfold slice.
    rewrite lookup_take_lt, lookup_drop by lia. done.
  - done.
Qed.

End WindowingFacts.

Lemma create_sequences_windows_witness :
  exists xs ys,
    create_sequences Toy.matrix 2 = Ok (xs, ys) /\
    length xs = 5 /\ length ys = 5 /\
    forall i, i < 5 ->
      exists x y,
        xs !! i = Some x /\ ys !! i = Some y /\
        length x = 2 /\
        (forall j, j < 2 -> x !! j = Toy.matrix !! (i + j)) /\
        Toy.matrix !! (i + 2) = Some y.
Proof. apply (create_sequences_windows Toy.matrix 2). simpl. lia. Defined.


(** ** Training *)

(** C5. With [num_epochs <= 0] the loop body never runs: [train_model]
    raises nothing and returns the model with the parameters it was given
    (in evaluation mode), the optimizer untouched and no loss recorded. *)
Theorem train_model_no_epochs {Weights Optim Batch}
    (epoch_step : Batch -> Weights -> Optim -> Weights * Optim * float)
    (model : GRUModel Weights) (Xy : Batch) (num_epochs : Z)
    (optimizer : Optim) :
  (num_epochs <= 0)%Z ->
  train_model epoch_step model Xy num_epochs optimizer =
  ({| weights := weights model; training := false |}, optimizer, []).
Proof.
  intros H. unfold train_model. by rewrite range_nonpos.
Qed.

Lemma train_model_no_epochs_witness :
  train_model Toy.epoch_step {| weights := 7; training := true |}
    ([], []) 0 tt =
  ({| weights := 7; training := false |}, tt, []).
Proof.
  apply (train_model_no_epochs Toy.epoch_step
           {| weights := 7; training := true |} ([], []) 0 tt).
  lia.
Defined.

(** Whatever the number of epochs, the model comes back in evaluation
    mode (line 60). *)
Lemma train_model_eval {Weights Optim Batch}
    (epoch_step : Batch -> Weights -> Optim -> Weights * Optim * float)
    (model : GRUModel Weights) (Xy : Batch) (num_epochs : Z)
    (optimizer : Optim) :
  training (train_model epoch_step model Xy num_epochs optimizer).1.1 = false.
Proof.
  unfold train_model.
  by destruct (fold_left _ _ _) as [[m o] ls].
Qed.

(** ** The scaler *)

Module MinMaxScalerFacts.
Import MinMaxScaler.
Local Open Scope Q_scope.

Lemma length_fold_columns (f : Q -> Q -> Q) (rows : list (list Q))
    (row : list Q) (n : nat) :
  length row = n -> rectangular n rows ->
  length (foldl (zip_with f) row rows) = n.
Proof.
  revert row. induction rows as [|r rows IH]; intros row Hrow Hrect;
    simpl; [done|].
  inversion Hrect as [|?? Hr Hrows]; subst.
  apply IH; [|done]. rewrite length_zip_with. lia.
Qed.

Lemma handle_zeros_nonzero (r : Q) : ~ handle_zeros_in_scale r == 0.
Proof.
  unfold handle_zeros_in_scale. destruct (Qeq_bool r 0) eqn:E.
  - discriminate.
  - by apply Qeq_bool_neq.
Qed.

Lemma scale_nonzero (r : Q) :
  ~ (snd feature_range - fst feature_range) / handle_zeros_in_scale r == 0.
Proof.
  intros H. pose proof (handle_zeros_nonzero r) as Hz.
  assert (snd feature_range - fst feature_range == 0) as H2.
  { rewrite <- (Qmult_div_r (snd feature_range - fst feature_range) _ Hz).
    rewrite H. ring. }
  discriminate H2.
Qed.

Lemma fit_fitted (X : list (list Q)) (n : nat) :
  X <> [] -> rectangular n X -> exists sc, fit X = Ok sc /\ fitted n sc.
Proof.
  intros Hne Hrect. destruct X as [|row rows]; [done|].
  inversion Hrect as [|?? Hrow Hrows]; subst.
  eexists. split; [reflexivity|]. unfold fitted. simpl.
  assert (length (zip_with Qminus (data_max row rows) (data_min row rows))
          = length row) as Hlen.
  { rewrite length_zip_with. unfold data_max, data_min.
    rewrite !(length_fold_columns _ rows row (length row)) by done. lia. }
  repeat split.
  - by rewrite length_map.
  - rewrite length_zip_with, length_map, Hlen. unfold data_min.
    rewrite (length_fold_columns _ rows row (length row)) by done. lia.
  - apply Forall_map, Forall_forall. intros r _. apply scale_nonzero.
Qed.

Lemma round_trip_columns (row scale min : list Q) :
  length scale = length row -> length min = length row ->
  Forall (fun a => ~ a == 0) scale ->
  Forall2 Qeq
    (zip_with Qdiv (zip_with Qminus (zip_with Qplus (zip_with Qmult row scale) min) min) scale)
    row.
Proof.
  revert scale min. induction row as [|x row IH]; intros scale min Hs Hm Hnz;
    destruct scale as [|a scale], min as [|b min]; try discriminate;
    simpl; constructor.
  - inversion Hnz; subst. field. done.
  - inversion Hnz; subst. apply IH; simpl in *; [lia|lia|done].
Qed.

Lemma round_trip_row (sc : t) (row : list Q) :
  fitted (length row) sc ->
  Forall2 Qeq (inverse_transform_row sc (transform_row sc row)) row.
Proof.
  intros (Hs & Hm & Hnz). by apply round_trip_columns.
Qed.

Lemma transform_row_affine (sc : t) (row : list Q) (j : nat) (x : Q) :
  fitted (length row) sc -> row !! j = Some x ->
  exists a b, scale_ sc !! j = Some a /\ min_ sc !! j = Some b /\
    transform_row sc row !! j = Some (x * a + b).
Proof.
  intros (Hs & Hm & _) Hx. pose proof (lookup_lt_Some _ _ _ Hx) as Hj.
  destruct (lookup_lt_is_Some_2 (scale_ sc) j ltac:(lia)) as [a Ha].
  destruct (lookup_lt_is_Some_2 (min_ sc) j ltac:(lia)) as [b Hb].
  exists a, b. repeat split; [done..|].
  unfold transform_row. rewrite !lookup_zip_with, Hx, Ha, Hb. done.
Qed.

End MinMaxScalerFacts.



(** ** The best candidate (lines 223-239) *)

(** No float is below itself. *)
Lemma float_ltb_irrefl (x : float) : PrimFloat.ltb x x = false.
Proof.
  rewrite ltb_spec. unfold SFltb, SFcompare.
  destruct (Prim2SF x) as [[]|[]| |[] m e]; try reflexivity;
    rewrite Z.compare_refl, Pos.compare_refl; reflexivity.
Qed.

Section TrackerFacts.
Context {Weights : Type}.
Implicit Types (s : State Weights) (c : Candidate) (m : GRUModel Weights).

Lemma deepcopy_lookup (h : list (GRUModel Weights)) l m :
  h !! l = Some m ->
  (deepcopy h l).1 !! (deepcopy h l).2 = Some m /\
  (deepcopy h l).2 <> l /\
  forall k, k < length h -> (deepcopy h l).1 !! k = h !! k.
Proof.
  intros Hl. unfold deepcopy. rewrite Hl. simpl. repeat split.
  - by apply list_lookup_middle.
  - apply lookup_lt_Some in Hl. lia.
  - intros k Hk. by apply lookup_app_l.
Qed.

(** Lines 224-229 when the test of line 224 holds. *)
Lemma keep_if_greater_taken c s :
  (best_predictions s = None \/
   exists best, best_predictions s = Some best /\
     np_all_gt (c_predictions c) best = true) ->
  let s1 := keep_if_greater c s in
  heap s1 = heap s /\ best_model s1 = Some (c_model c) /\
  best_predictions s1 = Some (c_predictions c) /\
  best_loss s1 = c_loss c /\ best_params s1 = Some (c_params c).
Proof.
  intros [Hn|(best & Hb & Hgt)]; unfold keep_if_greater;
    [rewrite Hn|rewrite Hb, Hgt]; simpl; done.
Qed.

(** Lines 224-229 when it does not. *)
Lemma keep_if_greater_skipped c s best :
  best_predictions s = Some best ->
  np_all_gt (c_predictions c) best = false ->
  keep_if_greater c s = s.
Proof.
  intros Hb Hgt. unfold keep_if_greater. by rewrite Hb, Hgt.
Qed.

(** Lines 236-239 when the loss is lower. *)
Lemma keep_if_lower_loss_taken c s m :
  PrimFloat.ltb (c_loss c) (best_loss s) = true ->
  heap s !! c_model c = Some m ->
  let s2 := keep_if_lower_loss c s in
  best_loss s2 = c_loss c /\ best_params s2 = Some (c_params c) /\
  best_object s2 = Some m /\ best_model s2 <> Some (c_model c) /\
  best_predictions s2 = best_predictions s.
Proof.
  intros Hlt Hm. unfold keep_if_lower_loss. rewrite Hlt.
  destruct (deepcopy_lookup _ _ _ Hm) as (Hnew & Hne & _).
  destruct (deepcopy (heap s) (c_model c)) as [h l] eqn:E. simpl in *.
  repeat split; try done. intros [= ->]. done.
Qed.

(** C1. At the end of a cycle the offered candidate (its loss, its
    hyper-parameters and the contents of its model) becomes the stored best
    as soon as (a) nothing is stored yet, or (b) its prediction is greater
    than the stored one in every component, or (c) its loss is strictly
    lower than the stored loss; when none of the three holds the stored
    best is left as it was. In particular, after a first candidate of loss
    0.5 offered to an empty tracker, a candidate of loss 0.2 is the one
    retained, whatever the two predictions are. *)
Theorem record_cycle_replacement s c m :
  heap s !! c_model c = Some m ->
  ((best_predictions s = None \/
    (exists best, best_predictions s = Some best /\
       np_all_gt (c_predictions c) best = true) \/
    PrimFloat.ltb (c_loss c) (best_loss s) = true) ->
   best_loss (record_cycle c s) = c_loss c /\
   best_params (record_cycle c s) = Some (c_params c) /\
   best_object (record_cycle c s) = Some m) /\
  ((exists best, best_predictions s = Some best /\
      np_all_gt (c_predictions c) best = false) ->
   PrimFloat.ltb (c_loss c) (best_loss s) = false ->
   best_loss (record_cycle c s) = best_loss s /\
   best_params (record_cycle c s) = best_params s /\
   best_model (record_cycle c s) = best_model s /\
   best_predictions (record_cycle c s) = best_predictions s /\
   heap (record_cycle c s) = heap s) /\
  (forall c0 s0,
     best_predictions s0 = None ->
     s = record_cycle c0 s0 ->
     c_loss c0 = 0.5%float -> c_loss c = 0.2%float ->
     best_loss (record_cycle c s) = 0.2%float /\
     best_params (record_cycle c s) = Some (c_params c) /\
     best_object (record_cycle c s) = Some m).
Proof.
  intros Hm.
  assert (forall t, heap t = heap s ->
            PrimFloat.ltb (c_loss c) (best_loss t) = true ->
            best_loss (keep_if_lower_loss c (advance_dates t)) = c_loss c /\
            best_params (keep_if_lower_loss c (advance_dates t))
              = Some (c_params c) /\
            best_object (keep_if_lower_loss c (advance_dates t)) = Some m)
    as Hlower.
  { intros t Ht Hlt.
    destruct (keep_if_lower_loss_taken c (advance_dates t) m)
      as (? & ? & ? & _); simpl; [done|by rewrite Ht|done]. }
  assert ((best_predictions s = None \/
           (exists best, best_predictions s = Some best /\
              np_all_gt (c_predictions c) best = true) \/
           PrimFloat.ltb (c_loss c) (best_loss s) = true) ->
          best_loss (record_cycle c s) = c_loss c /\
          best_params (record_cycle c s) = Some (c_params c) /\
          best_object (record_cycle c s) = Some m) as Hrule.
  { intros Hcase. unfold record_cycle.
    assert ((best_predictions s = None \/
             exists best, best_predictions s = Some best /\
               np_all_gt (c_predictions c) best = true) \/
            (exists best, best_predictions s = Some best /\
               np_all_gt (c_predictions c) best = false) /\
            PrimFloat.ltb (c_loss c) (best_loss s) = true) as [Hab|[Hnot Hc]].
    { destruct (best_predictions s) as [best|] eqn:Hb; [|by left; left].
      destruct (np_all_gt (c_predictions c) best) eqn:Hgt.
      - left. right. by exists best.
      - destruct Hcase as [?|[(b' & [= <-] & Hgt')|Hc]]; try congruence.
        right. split; [by exists best|done]. }
    - destruct (keep_if_greater_taken c s Hab) as (Hh & Hbm & _ & Hbl & Hbp).
      set (s1 := keep_if_greater c s) in *.
      destruct (PrimFloat.ltb (c_loss c) (best_loss s1)) eqn:Hlt.
      + by apply Hlower.
      + unfold keep_if_lower_loss. simpl. rewrite Hlt. simpl.
        unfold best_object. simpl. rewrite Hbm, Hh. simpl. done.
    - destruct Hnot as (best & Hb & Hgt).
      rewrite (keep_if_greater_skipped c s best Hb Hgt). by apply Hlower. }
  split; [exact Hrule|]. split.
  - intros (best & Hb & Hgt) Hlt. unfold record_cycle.
    rewrite (keep_if_greater_skipped c s best Hb Hgt).
    unfold keep_if_lower_loss. simpl. rewrite Hlt. done.
  - intros c0 s0 Hnone -> H05 H02. rewrite <- H02. apply Hrule.
    right. right.
    assert (best_loss (record_cycle c0 s0) = 0.5%float) as ->.
    { unfold record_cycle.
      destruct (keep_if_greater_taken c0 s0 (or_introl Hnone))
        as (_ & _ & _ & Hbl & _).
      unfold keep_if_lower_loss. simpl.
      rewrite Hbl, float_ltb_irrefl. simpl. by rewrite Hbl. }
    rewrite H02. reflexivity.
Qed.

(** C7, on the branch of lines 224-229. When the test of line 224 holds,
    [best_model] is the location of the live model itself, not of a copy:
    writing to the live object afterwards changes what [best_model]
    denotes. (The branch of lines 236-239 stores a copy, see
    [keep_if_lower_loss_taken].) *)
Theorem greater_branch_aliases_model s c m m' :
  heap s !! c_model c = Some m ->
  (best_predictions s = None \/
   exists best, best_predictions s = Some best /\
     np_all_gt (c_predictions c) best = true) ->
  best_model (record_cycle c s) = Some (c_model c) /\
  best_object (record_cycle c s) = Some m /\
  best_object (mutate (c_model c) m' (record_cycle c s)) = Some m'.
Proof.
  intros Hm Hab. unfold record_cycle.
  destruct (keep_if_greater_taken c s Hab) as (Hh & Hbm & _ & Hbl & _).
  set (s1 := keep_if_greater c s) in *.
  unfold keep_if_lower_loss. simpl. rewrite Hbl, float_ltb_irrefl.
  unfold best_object. simpl. rewrite Hbm, Hh. simpl.
  repeat split; [done|].
  apply list_lookup_insert_eq. by eapply lookup_lt_Some.
Qed.

(** C10. A candidate that is kept for its lower loss only (its prediction
    is not greater than the stored one in every component) replaces the
    stored loss, hyper-parameters and model, and leaves [best_predictions]
    as it was; the final report then shows, and the checkpoint holds, its
    loss, hyper-parameters and weights next to a prediction that an
    earlier candidate made. *)
Theorem lower_loss_keeps_predictions s c m best :
  heap s !! c_model c = Some m ->
  best_predictions s = Some best ->
  np_all_gt (c_predictions c) best = false ->
  PrimFloat.ltb (c_loss c) (best_loss s) = true ->
  best_predictions (record_cycle c s) = Some best /\
  best_loss (record_cycle c s) = c_loss c /\
  best_params (record_cycle c s) = Some (c_params c) /\
  best_object (record_cycle c s) = Some m /\
  report (record_cycle c s) =
    Ok {| shown_params := Some (c_params c);
          shown_loss := c_loss c;
          saved_state_dict := Some (weights m);
          shown_predictions := Some best |}.
Proof.
  intros Hm Hb Hgt Hlt. unfold record_cycle.
  rewrite (keep_if_greater_skipped c s best Hb Hgt).
  destruct (keep_if_lower_loss_taken c (advance_dates s) m Hlt Hm)
    as (Hbl & Hbp & Hbo & _ & Hpred).
  set (s2 := keep_if_lower_loss c (advance_dates s)) in *.
  simpl in Hpred. rewrite Hb in Hpred.
  repeat split; try done.
  unfold report. unfold best_object in Hbo.
  destruct (best_model s2) as [l|]; [|done]. simpl in Hbo.
  by rewrite Hbo, Hpred, Hbl, Hbp.
Qed.

(** Lines 231-233 are the only assignments to the dates and none is made
    to [start_date] or to what line 172 printed. *)
Lemma record_cycle_dates c s :
  end_date (record_cycle c s) = next_day_datetime s /\
  next_day_datetime (record_cycle c s) = (next_day_datetime s + 1)%Z /\
  start_date (record_cycle c s) = start_date s /\
  trained_with (record_cycle c s) = trained_with s.
Proof.
  unfold record_cycle, keep_if_lower_loss, keep_if_greater.
  destruct (match best_predictions s with
            | Some best => np_all_gt (c_predictions c) best
            | None => true
            end); simpl; destruct (PrimFloat.ltb _ _); simpl; done.
Qed.

End TrackerFacts.

Lemma record_cycle_replacement_witness :
  let s := record_cycle Toy.first Toy.two_models in
  np_all_gt (c_predictions Toy.second) (c_predictions Toy.first) = false /\
  best_loss (record_cycle Toy.second s) = 0.2%float /\
  best_params (record_cycle Toy.second s) = Some Toy.other_params /\
  best_object (record_cycle Toy.second s) = Some Toy.m1.
Proof.
  split; [reflexivity|].
  apply (record_cycle_replacement
           (record_cycle Toy.first Toy.two_models) Toy.second Toy.m1
           eq_refl)
    with (c0 := Toy.first) (s0 := Toy.two_models); reflexivity.
Defined.

Lemma greater_branch_aliases_model_witness :
  best_model (record_cycle Toy.first Toy.two_models) = Some 0 /\
  best_object (record_cycle Toy.first Toy.two_models) = Some Toy.m0 /\
  best_object
    (mutate 0 {| weights := 99; training := true |}
       (record_cycle Toy.first Toy.two_models))
  = Some {| weights := 99; training := true |}.
Proof.
  apply (greater_branch_aliases_model Toy.two_models Toy.first Toy.m0
           {| weights := 99; training := true |} eq_refl).
  left. reflexivity.
Defined.

Lemma lower_loss_keeps_predictions_witness :
  let s := record_cycle Toy.first Toy.two_models in
  best_predictions (record_cycle Toy.second s) = Some (c_predictions Toy.first) /\
  best_loss (record_cycle Toy.second s) = c_loss Toy.second /\
  best_params (record_cycle Toy.second s) = Some (c_params Toy.second) /\
  best_object (record_cycle Toy.second s) = Some Toy.m1 /\
  report (record_cycle Toy.second s) =
    Ok {| shown_params := Some (c_params Toy.second);
          shown_loss := c_loss Toy.second;
          saved_state_dict := Some (weights Toy.m1);
          shown_predictions := Some (c_predictions Toy.first) |}.
Proof.
  apply (lower_loss_keeps_predictions
           (record_cycle Toy.first Toy.two_models) Toy.second Toy.m1
           (c_predictions Toy.first)); reflexivity.
Defined.

(** ** The grid *)

Section GridFacts.
Context {V : Type}.
Implicit Types (values : list (list V)) (grid : dict (list V)).

Lemma product_block_length values (v : V) :
  length (map (cons v) (product values)) = length (product values).
Proof. apply length_map. Qed.

Lemma product_length values :
  length (product values) = foldr (fun vs n => length vs * n) 1 values.
Proof.
  induction values as [|vs values IH]; simpl; [done|].
  rewrite (flat_map_constant_length (c := length (product values))).
  - by rewrite IH.
  - intros v _. apply product_block_length.
Qed.

(** Blocks of equal length, one per element: where an entry of a block
    lies in their concatenation. *)
Lemma flat_map_lookup_block {A B} (f : A -> list B) (n : nat)
    (l : list A) (i r : nat) (a : A) :
  (forall x, length (f x) = n) -> l !! i = Some a -> r < n ->
  flat_map f l !! (i * n + r) = f a !! r.
Proof.
  intros Hf. revert i. induction l as [|x l IH]; intros i Hi Hr; [done|].
  simpl. destruct i as [|i]; simpl in *.
  - injection Hi as ->. apply lookup_app_l. by rewrite Hf.
  - rewrite lookup_app_r by (rewrite Hf; lia).
    rewrite Hf. replace (n + i * n + r - n) with (i * n + r) by lia.
    by apply IH.
Qed.

Lemma rank_lt values positions :
  in_range values positions ->
  rank values positions < length (product values).
Proof.
  intros H. induction H as [|i vs positions values Hi _ IH]; simpl; [lia|].
  rewrite (flat_map_constant_length (c := length (product values)))
    by (intros v _; apply product_block_length).
  nia.
Qed.

(** The combination picked at a tuple of positions is listed at the rank
    of the tuple. *)
Lemma product_lookup values positions :
  in_range values positions ->
  exists c, pick values positions = Some c /\
    product values !! rank values positions = Some c.
Proof.
  intros H. induction H as [|i vs positions values Hi Hrest IH]; simpl.
  { by exists []. }
  destruct IH as (c & Hpick & Hlook).
  destruct (lookup_lt_is_Some_2 vs i Hi) as [v Hv].
  exists (v :: c). rewrite Hv, Hpick. split; [done|].
  rewrite (flat_map_lookup_block _ (length (product values)) vs i _ v).
  - by rewrite list_lookup_fmap, Hlook.
  - intros x. apply product_block_length.
  - done.
  - by apply rank_lt.
Qed.

(** A tuple that comes first lexicographically is listed first. *)
Lemma rank_lex values p q :
  in_range values p -> in_range values q -> lex_lt p q ->
  rank values p < rank values q.
Proof.
  intros Hp. revert q.
  induction Hp as [|i vs p values Hi Hp IH]; intros q Hq Hlt; [done|].
  inversion Hq as [|j ? q' ? Hj Hq']; subst. simpl in *.
  pose proof (rank_lt values p Hp). pose proof (rank_lt values q' Hq').
  destruct Hlt as [Hlt|[-> Hlt]].
  - nia.
  - specialize (IH q' Hq' Hlt). lia.
Qed.

(** Every place of the product is the rank of a tuple. *)
Lemma rank_onto values k :
  k < length (product values) ->
  exists positions, in_range values positions /\ rank values positions = k.
Proof.
  revert k. induction values as [|vs values IH]; intros k Hk; simpl in *.
  { exists []. split; [constructor|lia]. }
  rewrite (flat_map_constant_length (c := length (product values))) in Hk
    by (intros v _; apply product_block_length).
  set (n := length (product values)) in *.
  assert (0 < n) as Hn by nia.
  destruct (IH (k mod n)) as (positions & Hin & Hrank).
  { apply Nat.mod_upper_bound. lia. }
  exists (k / n :: positions). split.
  - constructor; [|done]. apply Nat.Div0.div_lt_upper_bound. lia.
  - simpl. fold n. rewrite Hrank.
    pose proof (Nat.div_mod_eq k n). lia.
Qed.

Lemma insert_item_perm (kv : string * list V) items :
  insert_item kv items ≡ₚ kv :: items.
Proof.
  induction items as [|kv' items IH]; simpl; [done|].
  destruct (String.leb (fst kv) (fst kv')); [done|].
  rewrite IH. apply perm_swap.
Qed.

Lemma sorted_items_perm grid : sorted_items grid ≡ₚ grid.
Proof.
  induction grid as [|kv grid IH]; simpl; [done|].
  unfold sorted_items in *. simpl. rewrite insert_item_perm. by rewrite IH.
Qed.

Lemma insert_item_hd (kv a : string * list V) items :
  key_le a kv -> HdRel key_le a items -> HdRel key_le a (insert_item kv items).
Proof.
  intros Hkv Hhd. destruct items as [|kv' items]; simpl.
  - by constructor.
  - destruct (String.leb (fst kv) (fst kv')); constructor; [done|].
    by inversion Hhd.
Qed.

Lemma insert_item_sorted (kv : string * list V) items :
  Sorted key_le items -> Sorted key_le (insert_item kv items).
Proof.
  induction 1 as [|kv' items Hs IH Hhd]; simpl.
  - repeat constructor.
  - destruct (String.leb (fst kv) (fst kv')) eqn:E.
    + constructor; [by constructor|]. by constructor.
    + constructor; [done|]. apply insert_item_hd; [|done].
      unfold key_le. destruct (String.leb_total (fst kv) (fst kv')); congruence.
Qed.

Lemma sorted_items_sorted grid : Sorted key_le (sorted_items grid).
Proof.
  induction grid as [|kv grid IH]; simpl; [constructor|].
  by apply insert_item_sorted.
Qed.

Lemma combinations_perm (l1 l2 : list (string * list V)) :
  l1 ≡ₚ l2 -> combinations l1 = combinations l2.
Proof.
  unfold combinations. induction 1; simpl; lia.
Qed.

Lemma ParameterGrid_length grid :
  length (ParameterGrid grid) = combinations grid.
Proof.
  unfold ParameterGrid. rewrite length_map, product_length.
  rewrite <- (combinations_perm _ _ (sorted_items_perm grid)).
  unfold combinations. induction (sorted_items grid); simpl; congruence.
Qed.

End GridFacts.

(** ** The walk-forward loop (lines 180-239) *)

Section ScriptFacts.
Context {Frame Val Scaler Weights Optim Output : Type}.
Variable fetch_historical_data : Z -> Z -> result Frame.
Variable features : Frame -> result (list (list Val) * Scaler).
Variable init_weights : forall (draw input_dim output_dim : nat), Hyper -> Weights.
Variable Adam : Weights -> value -> Optim.
Variable epoch_step :
  list (list (list Val)) * list (list Val) -> Weights -> Optim ->
  Weights * Optim * float.
Variable forward : GRUModel Weights -> list (list (list Val)) -> Output.
Variable inverse_transform : Scaler -> Output -> list float.
Variable criterion : Output -> list (list Val) -> float.
Variable num_epochs : Z.
Variable num_cycles : Z.

Local Abbreviation cycle_ :=
  (cycle fetch_historical_data features init_weights Adam epoch_step forward
     inverse_transform criterion num_epochs).
Local Abbreviation walk_forward_ :=
  (walk_forward fetch_historical_data features init_weights Adam epoch_step
     forward inverse_transform criterion num_epochs num_cycles).
Local Abbreviation combination_ :=
  (combination fetch_historical_data features init_weights Adam epoch_step
     forward inverse_transform criterion num_epochs num_cycles).
Local Abbreviation grid_search_ :=
  (grid_search fetch_historical_data features init_weights Adam epoch_step
     forward inverse_transform criterion num_epochs num_cycles).
Local Abbreviation enough_data_ := (enough_data fetch_historical_data features).
Local Abbreviation runnable_ := (runnable fetch_historical_data features).

Implicit Types (s t : State Weights) (h : Hyper) (params : dict value).

(** A cycle that is served enough rows runs to its end. *)
Lemma cycle_runs h params s L :
  window_length (seq_length h) = Ok L -> enough_data_ L ->
  exists s',
    cycle_ h params s = Ok s' /\
    end_date s' = next_day_datetime s /\
    next_day_datetime s' = (next_day_datetime s + 1)%Z /\
    start_date s' = start_date s /\
    trained_with s' = trained_with s.
Proof.
  intros HL Hdata. unfold cycle.
  destruct (Hdata (start_date s) (end_date s))
    as (frame & data & scaler & -> & Hf & Hlen).
  simpl. rewrite Hf. simpl. rewrite HL. simpl.
  rewrite (create_sequences_enough data L Hlen). simpl.
  destruct (seq 0 (length data - L - 1)) as [|i rest] eqn:Hseq.
  { apply (f_equal length) in Hseq. rewrite length_seq in Hseq.
    simpl in Hseq. lia. }
  simpl.
  destruct (train_model _ _ _ _ _) as [[trained o] ls].
  destruct (Hdata (next_day_datetime s) (next_day_datetime s + 1)%Z)
    as (frame' & _ & _ & Hf' & _).
  simpl. rewrite Hf'. simpl.
  eexists. split; [reflexivity|].
  match goal with |- context [record_cycle ?c ?t] =>
    destruct (record_cycle_dates c t) as (-> & -> & -> & ->) end.
  done.
Qed.

(** A cycle that is served too few rows stops at [X.shape[2]]. *)
Lemma cycle_stops h params s frame data scaler L :
  fetch_historical_data (start_date s) (end_date s) = Ok frame ->
  features frame = Ok (data, scaler) ->
  window_length (seq_length h) = Ok L ->
  length data <= L + 1 ->
  cycle_ h params s = Raise IndexError.
Proof.
  intros Hfetch Hf HL Hlen. unfold cycle.
  rewrite Hfetch. simpl. rewrite Hf. simpl. rewrite HL. simpl.
  by rewrite (create_sequences_short data L Hlen).
Qed.

Lemma cycle_keeps_link h params s s' :
  cycle_ h params s = Ok s' -> dates_linked s ->
  dates_linked s' /\ end_date s' = (end_date s + 1)%Z /\
  start_date s' = start_date s.
Proof.
  unfold cycle, dates_linked. intros Hc Hs.
  destruct (fetch_historical_data (start_date s) (end_date s)); [|done].
  simpl in Hc. destruct (features a) as [[data scaler]|]; [|done].
  simpl in Hc. destruct (window_length (seq_length h)); [|done].
  simpl in Hc. destruct (create_sequences data a0) as [[X y]|]; [|done].
  simpl in Hc. destruct (shape_2 X data); [|done].
  simpl in Hc. destruct (train_model _ _ _ _ _) as [[trained o] ls].
  simpl in Hc. destruct (fetch_historical_data _ _) in Hc; [|done].
  simpl in Hc. injection Hc as <-.
  match goal with |- context [record_cycle ?c ?t] =>
    destruct (record_cycle_dates c t) as (-> & -> & -> & _) end.
  simpl. lia.
Qed.

(** [n] cycles in a row, whatever the loop variable is. *)
Lemma cycles_run h params L (items : list nat) s :
  window_length (seq_length h) = Ok L -> enough_data_ L ->
  dates_linked s ->
  exists s',
    for_each (fun s (_ : nat) => cycle_ h params s) s items = Ok s' /\
    end_date s' = (end_date s + Z.of_nat (length items))%Z /\
    dates_linked s' /\
    start_date s' = start_date s /\
    trained_with s' = trained_with s.
Proof.
  intros HL Hdata. revert s.
  induction items as [|i items IH]; intros s Hs; simpl.
  { exists s. repeat split; [lia|done]. }
  destruct (cycle_runs h params s L HL Hdata)
    as (s1 & Hc & He & Hn & Hsd & Htw).
  rewrite Hc. simpl.
  destruct (IH s1) as (s' & Hrun & He' & Hl' & Hsd' & Htw').
  { unfold dates_linked in *. lia. }
  exists s'. split; [done|]. unfold dates_linked in *.
  repeat split; [lia|done|congruence|congruence].
Qed.

Lemma length_range (n : Z) : (0 <= n)%Z -> Z.of_nat (length (range n)) = n.
Proof. intros H. unfold range. rewrite length_seq. lia. Qed.



(** ** The grid loop (lines 171-239) *)

Lemma combination_runs params s :
  runnable_ params -> dates_linked s -> (0 <= num_cycles)%Z ->
  exists s',
    combination_ s params = Ok s' /\
    end_date s' = (end_date s + num_cycles)%Z /\
    dates_linked s' /\
    start_date s' = start_date s /\
    trained_with s' = trained_with s ++ [params].
Proof.
  intros (h & L & Hread & HL & Hdata) Hs HC. unfold combination.
  rewrite Hread. simpl. unfold walk_forward.
  destruct (cycles_run h params L (range num_cycles) (announce params s)
              HL Hdata Hs) as (s' & Hrun & He & Hl & Hsd & Htw).
  exists s'. rewrite length_range in He by done. done.
Qed.

Lemma combinations_run (combos : list (dict value)) s :
  Forall runnable_ combos -> dates_linked s -> (0 <= num_cycles)%Z ->
  exists s',
    for_each combination_ s combos = Ok s' /\
    end_date s' = (end_date s + Z.of_nat (length combos) * num_cycles)%Z /\
    dates_linked s' /\
    start_date s' = start_date s /\
    trained_with s' = trained_with s ++ combos.
Proof.
  intros Hall Hs HC. revert s Hs.
  induction Hall as [|params combos Hp _ IH]; intros s Hs.
  { exists s. simpl. rewrite app_nil_r. repeat split; [lia|done]. }
  destruct (combination_runs params s Hp Hs HC)
    as (s1 & Hc & He & Hl & Hsd & Htw).
  destruct (IH s1 Hl) as (s' & Hrun & He' & Hl' & Hsd' & Htw').
  exists s'. simpl for_each. rewrite Hc. simpl. split; [done|].
  repeat split; [|done|congruence|].
  - rewrite He', He. simpl length. lia.
  - rewrite Htw', Htw, <- app_assoc. done.
Qed.



End ScriptFacts.

(** ** The small instance at work *)

Lemma toy_enough_data (L : nat) :
  L + 1 < 8 -> enough_data Toy.fetch Toy.features L.
Proof.
  intros HL a b. exists tt, Toy.matrix, tt. repeat split. simpl. lia.
Qed.

Lemma toy_runnable :
  Forall (runnable Toy.fetch Toy.features) (ParameterGrid Toy.grid).
Proof.
  assert (forall hd n, (2 <= n <= 4)%Z ->
            runnable Toy.fetch Toy.features
              [ ("dropout_rate"%string, VFloat 0.1);
                ("hidden_dim"%string, hd);
                ("learning_rate"%string, VFloat 0.001);
                ("num_layers"%string, VInt 2);
                ("seq_length"%string, VInt n) ]) as Hrun.
  { intros hd n Hn. eexists _, (Z.to_nat n). split; [reflexivity|]. split.
    - simpl. destruct (0 <=? n)%Z eqn:E; [done|lia].
    - apply toy_enough_data. lia. }
  repeat (constructor; [apply Hrun; lia|]). constructor.
Qed.






(** * Further properties *)

(** ** Windows *)

Section WindowingMore.
Context {A : Type}.
Implicit Types (data rows : list A) (L : nat).

(** The result in closed form, whatever the sizes. *)
Lemma create_sequences_closed data L :
  create_sequences data L =
  Ok (map (fun i => slice data i (i + L)) (seq 0 (length data - L - 1)),
      take (length data - L - 1) (drop L data)).
Proof.
  destruct (decide (L + 1 < length data)) as [H|H].
  - by apply create_sequences_enough.
  - rewrite create_sequences_short by lia.
    by replace (length data - L - 1) with 0 by lia.
Qed.

(** X1. [create_sequences] raises for no input: it returns as many
    windows as targets, [max(0, rows - seq_length - 1)] of each. *)
Theorem create_sequences_total data L :
  exists xs ys,
    create_sequences data L = Ok (xs, ys) /\
    length xs = length ys /\
    Z.of_nat (length xs) =
      Z.max 0 (Z.of_nat (length data) - Z.of_nat L - 1).
Proof.
  eexists _, _. split; [apply create_sequences_closed|].
  rewrite length_map, length_seq, length_take, length_drop. lia.
Qed.

(** X2. The last row of the data is never read: the windows and the
    targets are the same whatever that row is. *)
Theorem create_sequences_ignores_last_row rows (a b : A) L :
  create_sequences (rows ++ [a]) L = create_sequences (rows ++ [b]) L.
Proof.
  assert (forall c,
            create_sequences (rows ++ [c]) L =
            Ok (map (fun i => slice rows i (i + L)) (seq 0 (length rows - L)),
                take (length rows - L) (drop L rows))) as H.
  { intros c. rewrite create_sequences_closed, length_app. simpl.
    replace (length rows + 1 - L - 1) with (length rows - L) by lia.
    f_equal. f_equal.
    - apply map_ext_in. intros i Hi. apply in_seq in Hi. unfold slice.
      rewrite drop_app_le by lia. apply take_app_le.
      rewrite length_drop. lia.
    - destruct (decide (L <= length rows)) as [HL|HL].
      + rewrite drop_app_le by done. apply take_app_le.
        by rewrite length_drop.
      + by replace (length rows - L) with 0 by lia. }
  by rewrite (H a), (H b).
Qed.

(** X3. Successive windows slide by one row: the next window is the
    window without its first row, followed by the window's target. *)
Theorem create_sequences_slides data L xs ys i x y x' :
  create_sequences data L = Ok (xs, ys) -> 0 < L ->
  xs !! i = Some x -> ys !! i = Some y -> xs !! S i = Some x' ->
  x' = drop 1 x ++ [y].
Proof.
  rewrite create_sequences_closed. intros [= <- <-] HL Hx Hy Hx'.
  pose proof (lookup_lt_Some _ _ _ Hx') as Hi.
  rewrite length_map, length_seq in Hi.
  rewrite list_lookup_fmap, lookup_seq_lt in Hx by lia.
  rewrite list_lookup_fmap, lookup_seq_lt in Hx' by lia.
  rewrite lookup_take_lt, lookup_drop in Hy by lia.
  simpl in Hx, Hx'. injection Hx as <-. injection Hx' as <-.
  unfold slice.
  replace (i + L - i) with (S (L - 1)) by lia.
  replace (S (i + L) - S i) with (S (L - 1)) by lia.
  rewrite skipn_firstn_comm, drop_drop.
  replace (i + 1) with (S i) by lia.
  replace (S (L - 1) - 1) with (L - 1) by lia.
  apply take_S_r. rewrite lookup_drop.
  by replace (S i + (L - 1)) with (L + i) by lia.
Qed.

(** X4. With [R] rows and [seq_length + 1 < R], the last window, the one
    the cycle predicts from (line 201), is made of the rows
    [R - seq_length - 2], ..., [R - 3], and the last target, the one the
    cycle's loss is measured against (line 223), is row [R - 2]. *)
Theorem create_sequences_last data L :
  L + 1 < length data ->
  exists X y r,
    create_sequences data L = Ok (X, y) /\
    last_one X = [slice data (length data - L - 2) (length data - 2)] /\
    data !! (length data - 2) = Some r /\
    last_one y = [r].
Proof.
  intros HL.
  destruct (lookup_lt_is_Some_2 data (length data - 2) ltac:(lia)) as [r Hr].
  eexists _, _, r. split; [apply create_sequences_closed|].
  set (n := length data - L - 1). assert (0 < n) as Hn by lia.
  split; [|split; [done|]]; unfold last_one.
  - rewrite length_map, length_seq.
    change (map ?f ?l) with (f <$> l).
    rewrite <- fmap_drop, drop_seq. simpl.
    replace (n - (n - 1)) with 1 by lia. simpl.
    do 2 f_equal; lia.
  - rewrite length_take, length_drop.
    replace (n `min` (length data - L)) with n by lia.
    rewrite (drop_S _ r (n - 1)).
    + rewrite drop_ge; [done|]. rewrite length_take, length_drop. lia.
    + rewrite lookup_take_lt, lookup_drop by lia.
      by replace (L + (n - 1)) with (length data - 2) by lia.
Qed.

End WindowingMore.

(** ** Training *)

Section TrainerMore.
Context {Weights Optim Batch : Type}.
Variable epoch_step : Batch -> Weights -> Optim -> Weights * Optim * float.
Implicit Types (model : GRUModel Weights) (optimizer : Optim).

(** The parameters and the optimizer after a run of epochs depend on how
    many epochs there are, not on their numbers or on the losses recorded
    so far. *)
Lemma train_epochs_state (Xy : Batch) (l l' : list nat) model optimizer
    (ls ls' : list float) :
  length l = length l' ->
  (fold_left (train_epoch epoch_step Xy) l (model, optimizer, ls)).1 =
  (fold_left (train_epoch epoch_step Xy) l' (model, optimizer, ls')).1.
Proof.
  revert l' model optimizer ls ls'.
  induction l as [|t l IH]; intros [|t' l'] model optimizer ls ls' Hlen;
    try discriminate; [done|].
  simpl. destruct (epoch_step Xy (weights model) optimizer) as [[w o] loss].
  apply IH. simpl in Hlen. lia.
Qed.

Lemma train_epochs_mode (Xy : Batch) (l : list nat) model optimizer
    (ls : list float) :
  training (fold_left (train_epoch epoch_step Xy) l (model, optimizer, ls)).1.1
  = training model.
Proof.
  revert model optimizer ls.
  induction l as [|t l IH]; intros model optimizer ls; simpl; [done|].
  destruct (epoch_step Xy (weights model) optimizer) as [[w o] loss].
  by rewrite IH.
Qed.

Lemma train_epochs_losses (Xy : Batch) (n : nat) model optimizer :
  Z.of_nat (length (fold_left (train_epoch epoch_step Xy) (seq 0 n)
                      (model, optimizer, [])).2) =
  ((Z.of_nat n + 9) / 10)%Z.
Proof.
  induction n as [|n IH]; [done|].
  rewrite seq_S, fold_left_app.
  destruct (fold_left _ (seq 0 n) _) as [[m o] ls].
  cbn [fold_left train_epoch fst snd] in *.
  destruct (epoch_step Xy (weights m) o) as [[w o'] loss].
  cbn [snd]. rewrite Nat.add_0_l.
  destruct (Z.eqb_spec (Z.of_nat n mod 10) 0) as [E|E].
  - rewrite length_app. cbn [length]. Z.div_mod_to_equations. lia.
  - Z.div_mod_to_equations. lia.
Qed.

(** X5. Training can be resumed: [n] epochs followed by [m] more, on the
    model and the optimizer the first call left, end with the same model
    and the same optimizer as [n + m] epochs in one call. *)
Theorem train_model_resumes model (Xy : Batch) (n m : Z) optimizer :
  (0 <= n)%Z -> (0 <= m)%Z ->
  (train_model epoch_step model Xy (n + m) optimizer).1 =
  (train_model epoch_step
     (train_model epoch_step model Xy n optimizer).1.1 Xy m
     (train_model epoch_step model Xy n optimizer).1.2).1.
Proof.
  intros Hn Hm. unfold train_model, range.
  replace (Z.to_nat (n + m)) with (Z.to_nat n + Z.to_nat m) by lia.
  rewrite seq_app, fold_left_app.
  pose proof (train_epochs_mode Xy (seq 0 (Z.to_nat n))
                (set_training true model) optimizer []) as Hmode.
  destruct (fold_left _ (seq 0 (Z.to_nat n)) _) as [[m1 o1] ls1]. simpl in *.
  assert (set_training true (set_training false m1) = m1) as ->.
  { destruct m1 as [w t]. simpl in Hmode. by subst t. }
  pose proof (train_epochs_state Xy (seq (Z.to_nat n) (Z.to_nat m))
                (seq 0 (Z.to_nat m)) m1 o1 ls1 []) as Hstate.
  rewrite !length_seq in Hstate. specialize (Hstate eq_refl).
  destruct (fold_left _ (seq (Z.to_nat n) _) _) as [[m2 o2] ls2].
  destruct (fold_left _ (seq 0 (Z.to_nat m)) _) as [[m2' o2'] ls2'].
  simpl in *. by injection Hstate as -> ->.
Qed.

(** X6. A loss is recorded at epochs 0, 10, 20, ...: after [n >= 0]
    epochs the list that is charted has [ceil(n / 10)] entries. *)
Theorem train_model_loss_count model (Xy : Batch) (n : Z) optimizer :
  (0 <= n)%Z ->
  Z.of_nat (length (train_model epoch_step model Xy n optimizer).2) =
  ((n + 9) / 10)%Z.
Proof.
  intros Hn. unfold train_model, range.
  pose proof (train_epochs_losses Xy (Z.to_nat n)
                (set_training true model) optimizer) as Hlen.
  destruct (fold_left _ _ _) as [[m o] ls]. cbn [snd] in *.
  rewrite Hlen, Z2Nat.id by done. done.
Qed.

End TrainerMore.

Lemma train_model_resumes_witness :
  (train_model Toy.epoch_step Toy.m0 ([], []) (2 + 3) tt).1 =
  (train_model Toy.epoch_step
     (train_model Toy.epoch_step Toy.m0 ([], []) 2 tt).1.1 ([], []) 3
     (train_model Toy.epoch_step Toy.m0 ([], []) 2 tt).1.2).1.
Proof.
  apply (train_model_resumes Toy.epoch_step Toy.m0 ([], []) 2 3 tt); lia.
Defined.

Lemma train_model_loss_count_witness :
  Z.of_nat (length (train_model Toy.epoch_step Toy.m0 ([], []) 25 tt).2) =
  ((25 + 9) / 10)%Z.
Proof.
  apply (train_model_loss_count Toy.epoch_step Toy.m0 ([], []) 25 tt). lia.
Defined.

Lemma create_sequences_slides_witness :
  [[1; 3; 0; 2]; [2; 4; 1; 3]]%Z =
  drop 1 [[0; 2; -1; 1]; [1; 3; 0; 2]]%Z ++ [[2; 4; 1; 3]%Z].
Proof.
  apply (create_sequences_slides Toy.matrix 2 _ _ 0 _ _ _ eq_refl);
    [lia|reflexivity..].
Defined.

Lemma create_sequences_last_witness :
  exists X y r,
    create_sequences Toy.matrix 2 = Ok (X, y) /\
    last_one X = [slice Toy.matrix 4 6] /\
    Toy.matrix !! 6 = Some r /\
    last_one y = [r].
Proof.
  apply (create_sequences_last Toy.matrix 2). simpl. lia.
Defined.

(** ** The scaler *)

Module MinMaxScalerMore.
Import MinMaxScaler.
Local Open Scope Q_scope.

Lemma zip_min_le (a b : list Q) :
  length a = length b ->
  Forall2 Qle (zip_with Qmin a b) a /\ Forall2 Qle (zip_with Qmin a b) b.
Proof.
  revert b. induction a as [|x a IH]; intros [|y b] Hlen; try discriminate;
    simpl; [by split; constructor|].
  destruct (IH b ltac:(simpl in Hlen; lia)) as [Ha Hb].
  split; constructor; try done; [apply Q.le_min_l|apply Q.le_min_r].
Qed.

Lemma zip_max_ge (a b : list Q) :
  length a = length b ->
  Forall2 Qle a (zip_with Qmax a b) /\ Forall2 Qle b (zip_with Qmax a b).
Proof.
  revert b. induction a as [|x a IH]; intros [|y b] Hlen; try discriminate;
    simpl; [by split; constructor|].
  destruct (IH b ltac:(simpl in Hlen; lia)) as [Ha Hb].
  split; constructor; try done; [apply Q.le_max_l|apply Q.le_max_r].
Qed.

Lemma Forall2_Qle_trans (a b c : list Q) :
  Forall2 Qle a b -> Forall2 Qle b c -> Forall2 Qle a c.
Proof.
  intros Hab. revert c. induction Hab as [|x y a b Hxy _ IH];
    intros c Hbc; inversion Hbc; subst; constructor.
  - by eapply Qle_trans.
  - by apply IH.
Qed.

Lemma Forall2_Qle_refl (a : list Q) : Forall2 Qle a a.
Proof. induction a; constructor; [apply Qle_refl|done]. Qed.

(** The folded minimum is below the row it starts from and below every
    row it meets. *)
Lemma data_min_le (rows : list (list Q)) (row : list Q) (n : nat) :
  length row = n -> rectangular n rows ->
  Forall (fun r => Forall2 Qle (data_min row rows) r) (row :: rows).
Proof.
  unfold data_min. revert row.
  induction rows as [|r rows IH]; intros row Hrow Hrect; simpl.
  { constructor; [apply Forall2_Qle_refl|constructor]. }
  inversion Hrect as [|?? Hr Hrows]; subst.
  destruct (zip_min_le row r ltac:(lia)) as [Hle_row Hle_r].
  assert (length (zip_with Qmin row r) = length row) as Hlen.
  { rewrite length_zip_with. lia. }
  specialize (IH (zip_with Qmin row r) Hlen Hrows).
  inversion IH as [|?? Hhd Htl]; subst.
  constructor; [by eapply Forall2_Qle_trans|].
  constructor; [by eapply Forall2_Qle_trans|done].
Qed.

Lemma data_max_ge (rows : list (list Q)) (row : list Q) (n : nat) :
  length row = n -> rectangular n rows ->
  Forall (fun r => Forall2 Qle r (data_max row rows)) (row :: rows).
Proof.
  unfold data_max. revert row.
  induction rows as [|r rows IH]; intros row Hrow Hrect; simpl.
  { constructor; [apply Forall2_Qle_refl|constructor]. }
  inversion Hrect as [|?? Hr Hrows]; subst.
  destruct (zip_max_ge row r ltac:(lia)) as [Hle_row Hle_r].
  assert (length (zip_with Qmax row r) = length row) as Hlen.
  { rewrite length_zip_with. lia. }
  specialize (IH (zip_with Qmax row r) Hlen Hrows).
  inversion IH as [|?? Hhd Htl]; subst.
  constructor; [by eapply Forall2_Qle_trans|].
  constructor; [by eapply Forall2_Qle_trans|done].
Qed.

(** One entry between the minimum and the maximum of its column. *)
Lemma scaled_entry_bounds (x mn mx : Q) :
  mn <= x -> x <= mx ->
  let sc := (snd feature_range - fst feature_range)
            / handle_zeros_in_scale (mx - mn) in
  -1 <= x * sc + (fst feature_range - mn * sc) /\
  x * sc + (fst feature_range - mn * sc) <= 1.
Proof.
  intros Hlo Hhi. unfold handle_zeros_in_scale, feature_range. simpl.
  destruct (Qeq_bool (mx - mn) 0) eqn:E.
  - apply Qeq_bool_eq in E.
    assert ((1 - -1) / 1 == 2) as -> by reflexivity. lra.
  - apply Qeq_bool_neq in E.
    assert (0 < mx - mn) as Hpos by lra.
    set (s := (1 - -1) / (mx - mn)).
    assert (s * (mx - mn) == 2) as Hs.
    { unfold s. field. lra. }
    assert (0 < s) by nra. split; nra.
Qed.

Lemma transform_row_bounds (row mn mx : list Q) :
  Forall2 Qle mn row -> Forall2 Qle row mx ->
  let scale :=
    map (fun r => (snd feature_range - fst feature_range)
                  / handle_zeros_in_scale r) (zip_with Qminus mx mn) in
  Forall (fun v => -1 <= v /\ v <= 1)
    (zip_with Qplus (zip_with Qmult row scale)
       (zip_with (fun m sc => fst feature_range - m * sc) mn scale)).
Proof.
  intros Hlo. revert mx.
  induction Hlo as [|m x mn row Hmx _ IH]; intros mx Hhi;
    inversion Hhi as [|? M ? mx' HxM Hhi']; subst; simpl; constructor.
  - by apply scaled_entry_bounds.
  - by apply IH.
Qed.

(** The other way round: de-normalising and normalising again. *)
Lemma forth_and_back_columns (row scale min : list Q) :
  length scale = length row -> length min = length row ->
  Forall (fun a => ~ a == 0) scale ->
  Forall2 Qeq
    (zip_with Qplus
       (zip_with Qmult (zip_with Qdiv (zip_with Qminus row min) scale) scale)
       min)
    row.
Proof.
  revert scale min. induction row as [|x row IH]; intros scale min Hs Hm Hnz;
    destruct scale as [|a scale], min as [|b min]; try discriminate;
    simpl; constructor.
  - inversion Hnz; subst. field. done.
  - inversion Hnz; subst. apply IH; simpl in *; [lia|lia|done].
Qed.

End MinMaxScalerMore.





(** ** The dicts of the grid *)

Section GridMore.
Context {V : Type}.
Implicit Types (grid items : list (string * list V)) (k : string).

Lemma elem_of_product (vs : list V) (rest : list (list V)) (c : list V) :
  c ∈ product (vs :: rest) ->
  exists v c', c = v :: c' /\ v ∈ vs /\ c' ∈ product rest.
Proof.
  simpl. rewrite list_elem_of_In, in_flat_map.
  intros (v & Hv & Hc). apply in_map_iff in Hc as (c' & <- & Hc').
  exists v, c'. by rewrite !list_elem_of_In.
Qed.

(** Reading a key of the dict zipped from the items' keys and one
    combination of their values. *)
Lemma getitem_zip items (c : list V) k (vs : list V) :
  NoDup (map fst items) -> (k, vs) ∈ items ->
  c ∈ product (map snd items) ->
  exists v, getitem (zip (map fst items) c) k = Ok v /\ v ∈ vs.
Proof.
  revert c. induction items as [|[k0 vs0] items IH]; intros c Hnd Hin Hc.
  { by apply elem_of_nil in Hin. }
  simpl in Hc. apply elem_of_product in Hc as (v & c' & -> & Hv & Hc').
  simpl in Hnd. apply NoDup_cons in Hnd as [Hk0 Hnd]. simpl.
  apply elem_of_cons in Hin as [[= -> ->]|Hin].
  - rewrite String.eqb_refl. by exists v.
  - destruct (String.eqb_spec k k0) as [->|Hne].
    + exfalso. apply Hk0. apply list_elem_of_fmap. by exists (k0, vs).
    + by apply IH.
Qed.

Lemma getitem_zip_missing (keys : list string) (c : list V) k :
  k ∉ keys -> getitem (zip keys c) k = Raise KeyError.
Proof.
  revert c. induction keys as [|k0 keys IH]; intros [|v c] Hk; simpl;
    try done.
  destruct (String.eqb_spec k k0) as [->|Hne].
  - exfalso. apply Hk. by left.
  - apply IH. intros Hin. apply Hk. by right.
Qed.

(** X9. In every dict the grid loop is handed, each key of the grid is
    bound, to one of the values the grid lists for it (the keys of a grid
    are distinct). *)
Theorem ParameterGrid_getitem grid k (vs : list V) (d : dict V) :
  NoDup (map fst grid) -> (k, vs) ∈ grid -> d ∈ ParameterGrid grid ->
  exists v, getitem d k = Ok v /\ v ∈ vs.
Proof.
  intros Hnd Hin Hd. unfold ParameterGrid in Hd.
  apply list_elem_of_fmap in Hd as (c & -> & Hc).
  apply getitem_zip; [| |done].
  - by rewrite (sorted_items_perm grid).
  - by rewrite (sorted_items_perm grid).
Qed.

(** X10. A key the grid does not have is in none of the dicts: reading it
    raises [KeyError]. *)
Theorem ParameterGrid_missing_key grid k (d : dict V) :
  k ∉ map fst grid -> d ∈ ParameterGrid grid ->
  getitem d k = Raise KeyError.
Proof.
  intros Hk Hd. unfold ParameterGrid in Hd.
  apply list_elem_of_fmap in Hd as (c & -> & Hc).
  apply getitem_zip_missing. by rewrite (sorted_items_perm grid).
Qed.

End GridMore.

Lemma ParameterGrid_getitem_witness :
  exists v, getitem Toy.params "seq_length" = Ok v /\
    v ∈ [VInt 2; VInt 3; VInt 4].
Proof.
  apply (ParameterGrid_getitem Toy.grid "seq_length"
           [VInt 2; VInt 3; VInt 4] Toy.params).
  - simpl.
    repeat (apply NoDup_cons_2;
            [rewrite ?elem_of_cons, elem_of_nil; intros H;
             repeat (destruct H as [H|H]; [discriminate H|]); exact H|]).
    apply NoDup_nil_2.
  - do 3 right. left.
  - left.
Defined.

Lemma ParameterGrid_missing_key_witness :
  getitem Toy.params "batch_size" = Raise KeyError.
Proof.
  apply (ParameterGrid_missing_key Toy.grid "batch_size" Toy.params).
  - simpl. rewrite ?elem_of_cons, elem_of_nil. intros H.
    repeat (destruct H as [H|H]; [discriminate H|]). exact H.
  - left.
Defined.

(** ** The stored candidate through the loops *)

Section StoredFacts.
Context {Weights : Type}.
Implicit Types (s t : State Weights) (c : Candidate) (m : GRUModel Weights).

Lemma has_best_stored_ok s : has_best s -> stored_ok s.
Proof. by right. Qed.

(** Lines 224-239 write no object and allocate at most one. *)
Lemma record_cycle_heap c s :
  model (record_cycle c s) = model s /\
  (heap (record_cycle c s) = heap s \/
   heap (record_cycle c s) = heap s ++ option_list (heap s !! c_model c)).
Proof.
  unfold record_cycle, keep_if_lower_loss, keep_if_greater.
  destruct (match best_predictions s with
            | Some best => np_all_gt (c_predictions c) best
            | None => true
            end); simpl; destruct (PrimFloat.ltb _ _); simpl; auto.
Qed.

(** After lines 224-239 something is stored, if something was or if
    nothing was at all. *)
Lemma record_cycle_has_best c s m :
  heap s !! c_model c = Some m -> stored_ok s -> has_best (record_cycle c s).
Proof.
  intros Hm Hs. unfold record_cycle.
  assert (has_best (keep_if_greater c s))
    as (p & l & m' & q & Hp & Hl & Hm' & Hq).
  { unfold keep_if_greater.
    destruct Hs as [[Hn _]|(p & l & m' & q & Hp & Hl & Hm' & Hq)].
    - rewrite Hn. by exists (c_predictions c), (c_model c), m, (c_params c).
    - rewrite Hp. destruct (np_all_gt _ _).
      + by exists (c_predictions c), (c_model c), m, (c_params c).
      + by exists p, l, m', q. }
  assert (heap (keep_if_greater c s) = heap s) as Hheap.
  { unfold keep_if_greater. by destruct (match best_predictions s with
      | Some best => np_all_gt (c_predictions c) best | None => true end). }
  set (s1 := keep_if_greater c s) in *.
  unfold keep_if_lower_loss. simpl.
  destruct (PrimFloat.ltb _ _); simpl.
  - exists p, (length (heap s1)), m, (c_params c). repeat split; [done|].
    rewrite Hheap, Hm. simpl. by apply list_lookup_middle.
  - by exists p, l, m', q.
Qed.

(** The report of a state in which something is stored. *)
Lemma report_has_best s :
  has_best s ->
  exists p m q,
    report s =
      Ok {| shown_params := Some q; shown_loss := best_loss s;
            saved_state_dict := Some (weights m);
            shown_predictions := Some p |}.
Proof.
  intros (p & l & m & q & Hp & Hl & Hm & Hq). exists p, m, q.
  unfold report. by rewrite Hl, Hm, Hp, Hq.
Qed.

(** The report of a state in which nothing is stored. *)
Lemma report_nothing_stored s :
  best_predictions s = None -> best_model s = None ->
  report s =
    Ok {| shown_params := best_params s; shown_loss := best_loss s;
          saved_state_dict := None; shown_predictions := None |}.
Proof. intros _ Hl. unfold report. by rewrite Hl. Qed.

(** X11. When the prediction test of line 224 holds, the stored loss
    becomes the candidate's even if it is higher than the loss stored
    before: [best_loss] is not the least loss seen so far. *)
Theorem greater_prediction_raises_loss s c best :
  best_predictions s = Some best ->
  np_all_gt (c_predictions c) best = true ->
  PrimFloat.ltb (best_loss s) (c_loss c) = true ->
  best_loss (record_cycle c s) = c_loss c /\
  PrimFloat.ltb (best_loss s) (best_loss (record_cycle c s)) = true.
Proof.
  intros Hb Hgt Hlt.
  assert (best_loss (record_cycle c s) = c_loss c) as Hloss.
  { unfold record_cycle.
    destruct (keep_if_greater_taken c s) as (_ & _ & _ & Hbl & _).
    { right. by exists best. }
    unfold keep_if_lower_loss. simpl.
    rewrite Hbl, float_ltb_irrefl. simpl. done. }
  by rewrite Hloss.
Qed.

End StoredFacts.

Lemma greater_prediction_raises_loss_witness :
  let s := record_cycle Toy.second Toy.two_models in
  best_loss s = 0.2%float /\
  best_loss (record_cycle Toy.first s) = 0.5%float /\
  PrimFloat.ltb (best_loss s) (best_loss (record_cycle Toy.first s)) = true.
Proof.
  split; [reflexivity|].
  apply (greater_prediction_raises_loss
           (record_cycle Toy.second Toy.two_models) Toy.first
           (c_predictions Toy.second)); reflexivity.
Defined.

(** ** The loops, further *)

Section ScriptMore.
Context {Frame Val Scaler Weights Optim Output : Type}.
Variable fetch_historical_data : Z -> Z -> result Frame.
Variable features : Frame -> result (list (list Val) * Scaler).
Variable init_weights : forall (draw input_dim output_dim : nat), Hyper -> Weights.
Variable Adam : Weights -> value -> Optim.
Variable epoch_step :
  list (list (list Val)) * list (list Val) -> Weights -> Optim ->
  Weights * Optim * float.
Variable forward : GRUModel Weights -> list (list (list Val)) -> Output.
Variable inverse_transform : Scaler -> Output -> list float.
Variable criterion : Output -> list (list Val) -> float.
Variable num_epochs : Z.
Variable num_cycles : Z.

Local Abbreviation cycle_ :=
  (cycle fetch_historical_data features init_weights Adam epoch_step forward
     inverse_transform criterion num_epochs).
Local Abbreviation combination_ :=
  (combination fetch_historical_data features init_weights Adam epoch_step
     forward inverse_transform criterion num_epochs num_cycles).
Local Abbreviation grid_search_ :=
  (grid_search fetch_historical_data features init_weights Adam epoch_step
     forward inverse_transform criterion num_epochs num_cycles).
Local Abbreviation main_ :=
  (main fetch_historical_data features init_weights Adam epoch_step
     forward inverse_transform criterion num_epochs num_cycles).
Local Abbreviation enough_data_ := (enough_data fetch_historical_data features).
Local Abbreviation runnable_ := (runnable fetch_historical_data features).

Implicit Types (s t : State Weights) (h : Hyper) (params : dict value).

(** What a cycle that returns has done: one object allocated and trained,
    then lines 224-239 on it. *)
Lemma cycle_returns h params s s' :
  cycle_ h params s = Ok s' ->
  exists c fresh trained,
    s' = record_cycle c
           (mutate (length (heap s)) trained (new_model fresh s)) /\
    c_model c = length (heap s) /\ c_params c = params /\
    training trained = false.
Proof.
  unfold cycle. intros Hc.
  destruct (fetch_historical_data (start_date s) (end_date s)); [|done].
  simpl in Hc. destruct (features a) as [[data scaler]|]; [|done].
  simpl in Hc. destruct (window_length (seq_length h)); [|done].
  simpl in Hc. destruct (create_sequences data a0) as [[X y]|]; [|done].
  simpl in Hc. destruct (shape_2 X data); [|done].
  simpl in Hc.
  match type of Hc with context [train_model ?st ?f ?b ?n ?o] =>
    pose proof (train_model_eval st f b n o) as Heval;
    destruct (train_model st f b n o) as [[trained o'] ls] end.
  simpl in Hc, Heval.
  destruct (fetch_historical_data _ _) in Hc; [|done].
  simpl in Hc. injection Hc as <-.
  eexists _, _, trained. repeat split; done.
Qed.

(** The heap after line 199. *)
Lemma trained_heap (fresh trained : GRUModel Weights) s :
  let t := mutate (length (heap s)) trained (new_model fresh s) in
  length (heap t) = S (length (heap s)) /\
  heap t !! length (heap s) = Some trained /\
  forall k, k < length (heap s) -> heap t !! k = heap s !! k.
Proof.
  simpl. repeat split.
  - rewrite length_insert, length_app. simpl. lia.
  - apply list_lookup_insert_eq. rewrite length_app. simpl. lia.
  - intros k Hk. rewrite list_lookup_insert_ne by lia.
    by apply lookup_app_l.
Qed.

(** X12. A cycle that returns has written to no model object that existed
    before it: it has allocated the model it trained, which [model] now
    refers to and which is in evaluation mode, and at most a copy of it. In
    particular what [best_model] referred to before the cycle has the
    contents it had. *)
Theorem cycle_writes_no_earlier_model h params s s' :
  cycle_ h params s = Ok s' ->
  (forall k, k < length (heap s) -> heap s' !! k = heap s !! k) /\
  model s' = Some (length (heap s)) /\
  (exists trained,
     heap s' !! length (heap s) = Some trained /\
     training trained = false) /\
  (length (heap s') = length (heap s) + 1 \/
   length (heap s') = length (heap s) + 2).
Proof.
  intros Hc.
  destruct (cycle_returns h params s s' Hc)
    as (c & fresh & trained & -> & Hl & _ & Heval).
  destruct (trained_heap fresh trained s) as (Hlen & Hnew & Hold).
  set (t := mutate (length (heap s)) trained (new_model fresh s)) in *.
  destruct (record_cycle_heap c t) as [Hmodel [Hheap|Hheap]];
    rewrite Hmodel, Hheap.
  - split; [exact Hold|]. split; [reflexivity|].
    split; [by exists trained|]. left. lia.
  - rewrite Hl, Hnew. cbn [option_list].
    split; [|split; [reflexivity|split]].
    + intros k Hk. rewrite lookup_app_l by lia. by apply Hold.
    + exists trained. split; [|done]. rewrite lookup_app_l by lia. done.
    + right. rewrite length_app, Hlen. simpl. lia.
Qed.

(** Through a cycle, a search of cycles, a combination and the grid. *)
Lemma cycle_stores h params s s' :
  stored_ok s -> cycle_ h params s = Ok s' -> has_best s'.
Proof.
  intros Hs Hc.
  destruct (cycle_returns h params s s' Hc)
    as (c & fresh & trained & -> & Hl & _ & _).
  destruct (trained_heap fresh trained s) as (Hlen & Hnew & Hold).
  apply (record_cycle_has_best c _ trained); [by rewrite Hl|].
  destruct Hs as [[Hn Hm]|(p & l & m & q & Hp & Hm & Hlk & Hq)].
  - by left.
  - right. exists p, l, m, q. repeat split; try done.
    rewrite Hold; [done|]. by eapply lookup_lt_Some.
Qed.

Lemma cycles_store h params (items : list nat) s s' :
  stored_ok s ->
  for_each (fun s (_ : nat) => cycle_ h params s) s items = Ok s' ->
  stored_ok s' /\ (items <> [] -> has_best s').
Proof.
  revert s. induction items as [|i items IH]; intros s Hs Hrun; simpl in Hrun.
  { injection Hrun as <-. done. }
  destruct (cycle_ h params s) as [s1|] eqn:Hc; [|done]. simpl in Hrun.
  pose proof (cycle_stores h params s s1 Hs Hc) as Hbest.
  destruct (IH s1 (has_best_stored_ok _ Hbest) Hrun) as [Hok Hrest].
  split; [done|]. intros _. destruct items as [|j items].
  - simpl in Hrun. by injection Hrun as <-.
  - by apply Hrest.
Qed.

Lemma announce_stored_ok params s : stored_ok s -> stored_ok (announce params s).
Proof. done. Qed.

Lemma combination_stores params s s' :
  stored_ok s -> combination_ s params = Ok s' ->
  stored_ok s' /\ ((0 < num_cycles)%Z -> has_best s').
Proof.
  unfold combination, walk_forward. intros Hs Hrun.
  destruct (read_params params) as [h|]; [|done]. simpl in Hrun.
  destruct (cycles_store h params _ _ s' (announce_stored_ok params s Hs) Hrun)
    as [Hok Hbest].
  split; [done|]. intros HC. apply Hbest. unfold range.
  destruct (Z.to_nat num_cycles) eqn:E; [lia|done].
Qed.

Lemma combinations_store (combos : list (dict value)) s s' :
  stored_ok s -> for_each combination_ s combos = Ok s' ->
  stored_ok s' /\ ((0 < num_cycles)%Z -> combos <> [] -> has_best s').
Proof.
  revert s. induction combos as [|params combos IH]; intros s Hs Hrun;
    simpl in Hrun.
  { injection Hrun as <-. done. }
  destruct (combination_ s params) as [s1|] eqn:Hc; [|done]. simpl in Hrun.
  destruct (combination_stores params s s1 Hs Hc) as [Hok1 Hbest1].
  destruct (IH s1 Hok1 Hrun) as [Hok Hrest].
  split; [done|]. intros HC _. destruct combos as [|params' combos].
  - simpl in Hrun. injection Hrun as <-. by apply Hbest1.
  - by apply Hrest.
Qed.

(** X13. The report never fails once the search has returned: line 249
    never finds [best_predictions] unset while a model is stored. If at
    least one cycle ran, the report has a checkpoint, a prediction and
    hyper-parameters; otherwise it has none of them. *)
Theorem report_after_search (grid : dict (list value)) (sd ed : Z) s' :
  grid_search_ grid (initial_state sd ed) = Ok s' ->
  (exists r, report s' = Ok r) /\
  ((0 < num_cycles)%Z -> ParameterGrid grid <> [] ->
   exists p m q,
     report s' =
       Ok {| shown_params := Some q; shown_loss := best_loss s';
             saved_state_dict := Some (weights m);
             shown_predictions := Some p |}).
Proof.
  intros Hrun. unfold grid_search in Hrun.
  destruct (combinations_store (ParameterGrid grid) (initial_state sd ed) s')
    as [Hok Hbest]; [by left|done|].
  split.
  - destruct Hok as [[Hn Hm]|Hb].
    + eexists. by apply report_nothing_stored.
    + destruct (report_has_best s' Hb) as (p & m & q & ->). by eexists.
  - intros HC Hne. apply report_has_best. by apply Hbest.
Qed.

(** The combinations of the script's grid have their five keys, with
    windows of at most a hundred rows. *)
Lemma param_grid_windows :
  forallb (window_at_most 100) (ParameterGrid param_grid) = true.
Proof. vm_compute. reflexivity. Qed.

Lemma window_at_most_runnable (n : nat) params :
  window_at_most n params = true -> enough_data_ n -> runnable_ params.
Proof.
  unfold window_at_most. intros Hw Hdata.
  destruct (read_params params) as [h|] eqn:Hr; [|done].
  destruct (window_length (seq_length h)) as [L|] eqn:HL; [|done].
  apply Nat.leb_le in Hw. exists h, L. split; [done|]. split; [done|].
  intros a b. destruct (Hdata a b) as (frame & data & scaler & ? & ? & ?).
  exists frame, data, scaler. repeat split; [done..|lia].
Qed.

Lemma param_grid_runnable :
  enough_data_ 100 -> Forall runnable_ (ParameterGrid param_grid).
Proof.
  intros Hdata. apply Forall_forall. intros params Hin.
  pose proof param_grid_windows as Hall.
  rewrite forallb_forall in Hall.
  apply (window_at_most_runnable 100); [|done].
  apply Hall. by apply list_elem_of_In.
Qed.


(** With no cycle, a combination only prints its line. *)
Lemma combinations_idle (combos : list (dict value)) s :
  (num_cycles <= 0)%Z ->
  Forall (fun params => exists h, read_params params = Ok h) combos ->
  exists s',
    for_each combination_ s combos = Ok s' /\ report s' = report s.
Proof.
  intros HC Hall. revert s.
  induction Hall as [|params combos [h Hr] _ IH]; intros s; simpl.
  { by exists s. }
  unfold combination at 1. rewrite Hr. simpl. unfold walk_forward.
  rewrite range_nonpos by done. simpl.
  destruct (IH (announce params s)) as (s' & Hrun & Hrep).
  exists s'. by rewrite Hrun, Hrep.
Qed.

(** X15. With [num_cycles <= 0] the script downloads nothing, trains
    nothing and saves nothing, whatever the collaborators would do: it
    ends by showing no hyper-parameters and an infinite loss. *)
Theorem main_without_cycles (sd ed : Z) :
  (num_cycles <= 0)%Z ->
  main fetch_historical_data features init_weights Adam epoch_step forward
    inverse_transform criterion num_epochs num_cycles sd ed =
  Ok {| shown_params := None; shown_loss := infinity;
        saved_state_dict := None; shown_predictions := None |}.
Proof.
  intros HC. unfold main, grid_search.
  destruct (combinations_idle (ParameterGrid param_grid)
              (initial_state sd ed) HC) as (s' & -> & Hrep).
  { apply Forall_forall. intros params Hin.
    pose proof param_grid_windows as Hall. rewrite forallb_forall in Hall.
    specialize (Hall params (proj1 (list_elem_of_In _ _) Hin)).
    unfold window_at_most in Hall.
    destruct (read_params params) as [h|]; [by exists h|done]. }
  simpl. by rewrite Hrep.
Qed.

(** X16. An exception in any combination ends the script with that
    exception: the combinations after it are not run and nothing is
    reported or saved, whatever the combinations before it had stored. *)
Theorem main_aborts (sd ed : Z) (k : nat) params sk (e : exn) :
  ParameterGrid param_grid !! k = Some params ->
  for_each combination_ (initial_state sd ed)
    (take k (ParameterGrid param_grid)) = Ok sk ->
  combination_ sk params = Raise e ->
  main fetch_historical_data features init_weights Adam epoch_step forward
    inverse_transform criterion num_epochs num_cycles sd ed = Raise e.
Proof.
  intros Hk Hbefore Hraise. unfold main, grid_search.
  rewrite <- (take_drop_middle _ _ _ Hk), for_each_app, Hbefore.
  simpl. by rewrite Hraise.
Qed.

End ScriptMore.

Lemma cycle_writes_no_earlier_model_witness :
  (forall k, k < 2 ->
     heap (ToyHistory.state_of ToyHistory.later_cycle) !! k =
     [Toy.m0; Toy.m1] !! k) /\
  model (ToyHistory.state_of ToyHistory.later_cycle) = Some 2 /\
  (exists trained,
     heap (ToyHistory.state_of ToyHistory.later_cycle) !! 2 = Some trained /\
     training trained = false) /\
  (length (heap (ToyHistory.state_of ToyHistory.later_cycle)) = 2 + 1 \/
   length (heap (ToyHistory.state_of ToyHistory.later_cycle)) = 2 + 2).
Proof.
  apply (cycle_writes_no_earlier_model Toy.fetch Toy.features
           Toy.init_weights Toy.Adam Toy.epoch_step Toy.forward
           Toy.inverse_transform Toy.criterion 3 Toy.short_window Toy.params
           Toy.two_models (ToyHistory.state_of ToyHistory.later_cycle)).
  vm_compute. reflexivity.
Defined.

Lemma report_after_search_witness :
  (exists r, report (ToyHistory.state_of ToyHistory.search) = Ok r) /\
  ((0 < 2)%Z -> ParameterGrid Toy.grid <> [] ->
   exists p m q,
     report (ToyHistory.state_of ToyHistory.search) =
       Ok {| shown_params := Some q;
             shown_loss := best_loss (ToyHistory.state_of ToyHistory.search);
             saved_state_dict := Some (weights m);
             shown_predictions := Some p |}).
Proof.
  apply (report_after_search Toy.fetch Toy.features Toy.init_weights
           Toy.Adam Toy.epoch_step Toy.forward Toy.inverse_transform
           Toy.criterion 3 2 Toy.grid 0 100
           (ToyHistory.state_of ToyHistory.search)).
  vm_compute. reflexivity.
Defined.

Lemma toy_history_enough_data :
  enough_data Toy.fetch ToyHistory.features 100.
Proof.
  intros a b. exists tt, ToyHistory.matrix, tt. repeat split.
  unfold ToyHistory.matrix. rewrite length_map, length_seq. lia.
Qed.


Lemma main_without_cycles_witness :
  main Toy.fetch Toy.features Toy.init_weights Toy.Adam Toy.epoch_step
    Toy.forward Toy.inverse_transform Toy.criterion 3 0 0 100 =
  Ok {| shown_params := None; shown_loss := infinity;
        saved_state_dict := None; shown_predictions := None |}.
Proof.
  apply (main_without_cycles Toy.fetch Toy.features Toy.init_weights
           Toy.Adam Toy.epoch_step Toy.forward Toy.inverse_transform
           Toy.criterion 3 0 0 100).
  lia.
Defined.

Lemma main_aborts_witness :
  main Toy.fetch Toy.features Toy.init_weights Toy.Adam Toy.epoch_step
    Toy.forward Toy.inverse_transform Toy.criterion 3 2 0 100 =
  Raise IndexError.
Proof.
  apply (main_aborts Toy.fetch Toy.features Toy.init_weights Toy.Adam
           Toy.epoch_step Toy.forward Toy.inverse_transform Toy.criterion
           3 2 0 100 0
           [ ("dropout_rate"%string, VFloat 0.1);
             ("hidden_dim"%string, VInt 32);
             ("learning_rate"%string, VFloat 0.001);
             ("num_layers"%string, VInt 2);
             ("seq_length"%string, VInt 60) ]
           (initial_state 0 100) IndexError).
  - reflexivity.
  - reflexivity.
  - vm_compute. reflexivity.
Defined.
